(** * BME690 breakout board: bus shim and self-test, verified against the C sources

    Shallow embedding of [examples/common/common.c] (the pigpio bus shim, the
    interface life cycle) and of [examples/self_test/self_test.c] (the
    self-test sequencer and [main]).

    - The pigpio library and Bosch's sensor driver are external: every call
      into them is an event, answered by an oracle that sees the whole
      history of earlier calls and answers.
    - C statements are values of a small monad with three outcomes: control
      falls through to the next statement, a [return] statement ran, or the
      behaviour is not defined by C (an index outside an array, a call
      through a pointer that is not a known function).
    - [uint32_t] arithmetic wraps modulo [2^32]; bytes are integers in
      [0, 256). *)

From Stdlib Require Import ZArith Lia String.
From Stdlib Require Import Floats.SpecFloat.
From stdpp Require Import base list.

Local Open Scope string_scope.
Local Open Scope list_scope.
Local Open Scope Z_scope.

(** ** Machine integers *)

(** Reduction of a value to [uint32_t]. *)
Definition u32 (z : Z) : Z := z mod 2 ^ 32.

(** The cast [(int)x] of a [uint32_t] on a two's complement target. *)
Definition to_int (z : Z) : Z := if z <? 2 ^ 31 then z else z - 2 ^ 32.

(** ** Single precision floats

    [bme69x.h] compiled with the floating point unit enabled (its default,
    and what the [%.2f] formats and the [100.0f] literal of the self-test
    presuppose) declares the readings as [float]: IEEE 754 binary32, here
    [spec_float] at precision 24 and maximal exponent 128. *)
Module F32.
Definition prec : Z := 24.
Definition emax : Z := 128.

(** Conversion of an integer constant to [float]. *)
Definition of_Z (z : Z) : spec_float := binary_normalize prec emax z 0 false.

Definition ltb (x y : spec_float) : bool := SFltb x y.
Definition leb (x y : spec_float) : bool := SFleb x y.
Definition div (x y : spec_float) : spec_float := SFdiv prec emax x y.
End F32.

(** ** What [bme69x.h] provides

    The header is not part of the sources at hand; its constants are taken
    as parameters. *)
Class bme69x_defs := {
  BME69X_OK : Z;
  BME69X_E_NULL_PTR : Z;
  BME69X_E_COM_FAIL : Z;
  BME69X_E_INVALID_LENGTH : Z;
  BME69X_E_DEV_NOT_FOUND : Z;
  BME69X_E_SELF_TEST : Z;
  BME69X_W_NO_NEW_DATA : Z;
  BME69X_INTF_RET_SUCCESS : Z;
  BME69X_CHIP_ID : Z;
  BME69X_I2C_INTF : Z;
  BME69X_SPI_INTF : Z;
  BME69X_I2C_ADDR_HIGH : Z;
  BME69X_FILTER_OFF : Z;
  BME69X_ODR_NONE : Z;
  BME69X_OS_16X : Z;
  BME69X_OS_1X : Z;
  BME69X_OS_2X : Z;
  BME69X_ENABLE : Z;
  BME69X_FORCED_MODE : Z;
  BME69X_NEW_DATA_MSK : Z;
  BME69X_GASM_VALID_MSK : Z;
  BME69X_HEAT_STAB_MSK : Z
}.

(** The values Bosch's header gives them; used to run the model on concrete
    inputs. *)
Definition bosch_defs : bme69x_defs := {|
  BME69X_OK := 0;
  BME69X_E_NULL_PTR := -1;
  BME69X_E_COM_FAIL := -2;
  BME69X_E_INVALID_LENGTH := -4;
  BME69X_E_DEV_NOT_FOUND := -3;
  BME69X_E_SELF_TEST := -5;
  BME69X_W_NO_NEW_DATA := 2;
  BME69X_INTF_RET_SUCCESS := 0;
  BME69X_CHIP_ID := 0x61;
  BME69X_I2C_INTF := 1;
  BME69X_SPI_INTF := 0;
  BME69X_I2C_ADDR_HIGH := 0x77;
  BME69X_FILTER_OFF := 0;
  BME69X_ODR_NONE := 8;
  BME69X_OS_16X := 5;
  BME69X_OS_1X := 1;
  BME69X_OS_2X := 2;
  BME69X_ENABLE := 1;
  BME69X_FORCED_MODE := 1;
  BME69X_NEW_DATA_MSK := 0x80;
  BME69X_GASM_VALID_MSK := 0x20;
  BME69X_HEAT_STAB_MSK := 0x10
|}.

(** Default I2C bus, SPI bus and SPI speed for Raspberry Pi (common.c). *)
Definition BME69X_I2C_BUS : Z := 1.
Definition BME69X_SPI_BUS : Z := 0.
Definition BME69X_SPI_SPEED : Z := 1000000.

(** Function pointers stored in the device structure: the five callbacks of
    the shim, or any other value. *)
Inductive fn_ptr :=
| ptr_other (a : Z)
| ptr_bme69x_i2c_read
| ptr_bme69x_i2c_write
| ptr_bme69x_spi_read
| ptr_bme69x_spi_write
| ptr_bme69x_delay_us.

(** Data pointers: [&dev_addr], or any other value. *)
Inductive data_ptr :=
| addr_other (a : Z)
| addr_of_dev_addr.

(** The fields of [struct bme69x_dev] the repository reads or writes. *)
Record bme69x_dev := Dev {
  chip_id : Z;
  intf_ptr : data_ptr;
  intf : Z;
  amb_temp : Z;
  read : fn_ptr;
  write : fn_ptr;
  delay_us : fn_ptr
}.

Record bme69x_conf := Conf {
  os_hum : Z;
  os_temp : Z;
  os_pres : Z;
  filter : Z;
  odr : Z
}.

(** The three fields of [struct bme69x_heatr_conf] the self-test sets. *)
Record bme69x_heatr_conf := HeatrConf {
  enable : Z;
  heatr_temp : Z;
  heatr_dur : Z
}.

Record bme69x_data := Data {
  status : Z;
  idac : Z;
  temperature : spec_float;
  pressure : spec_float;
  humidity : spec_float;
  gas_resistance : spec_float
}.

(** ** The outside world *)

(** Calls that leave the repository, indexed by what comes back: the C
    return value, and the contents of the objects the callee may write
    through its pointer arguments. *)
Inductive call : Type -> Type :=
  (* pigpio *)
| gpioInitialise : call Z
| gpioTerminate : call unit
| gpioDelay (micros : Z) : call Z
| i2cOpen (i2cBus i2cAddr i2cFlags : Z) : call Z
| i2cClose (handle : Z) : call Z
| i2cWriteDevice (handle : Z) (buf : list Z) (count : Z) : call Z
| i2cReadDevice (handle : Z) (count : Z) : call (Z * list Z)
| spiOpen (spiChan baud spiFlags : Z) : call Z
| spiClose (handle : Z) : call Z
| spiXfer (handle : Z) (txBuf : list Z) (count : Z) : call (Z * list Z)
| spiWrite (handle : Z) (buf : list Z) (count : Z) : call Z
  (* libc *)
| fflush_stdout : call Z
  (* the sensor driver *)
| bme69x_init (dev : bme69x_dev) : call (Z * bme69x_dev)
| bme69x_get_conf (dev : bme69x_dev) : call (Z * bme69x_conf * bme69x_dev)
| bme69x_set_conf (conf : bme69x_conf) (dev : bme69x_dev) : call (Z * bme69x_dev)
| bme69x_set_heatr_conf (op_mode : Z) (conf : bme69x_heatr_conf) (dev : bme69x_dev)
  : call (Z * bme69x_dev)
| bme69x_set_op_mode (op_mode : Z) (dev : bme69x_dev) : call (Z * bme69x_dev)
| bme69x_get_meas_dur (op_mode : Z) (conf : bme69x_conf) (dev : bme69x_dev)
  : call (Z * bme69x_dev)
| bme69x_get_data (op_mode : Z) (dev : bme69x_dev)
  : call (Z * bme69x_data * Z * bme69x_dev).

(** A call together with its answer. *)
Inductive event : Type :=
| Event (T : Type) (c : call T) (answer : T).
Arguments Event {T} c answer.

Inductive printf_arg :=
| arg_int (z : Z)
| arg_float (f : spec_float)
| arg_str (s : string).

(** The static variables of common.c, the external calls made so far and
    the lines printed so far (both newest first). *)
Record world := World {
  dev_addr : Z;
  i2c_handle : Z;
  spi_handle : Z;
  calls : list event;
  stdout : list (string * list printf_arg)
}.

(** The state at program start: [static int i2c_handle = -1] and so on. *)
Definition initial_world : world :=
  {| dev_addr := 0; i2c_handle := -1; spi_handle := -1; calls := []; stdout := [] |}.

(** The platform decides every answer, knowing the history; it also decides
    what an uninitialised byte of the stack holds. *)
Class platform := {
  answer_of : forall T : Type, list event -> call T -> T;
  indeterminate : nat -> nat -> Z
}.

(** ** Statements and functions *)

Inductive outcome (R A : Type) : Type :=
| Falls (a : A) (w : world)
| Returns (r : R) (w : world)
| Undefined (w : world).
Arguments Falls {R A} a w.
Arguments Returns {R A} r w.
Arguments Undefined {R A} w.

(** A statement in a function returning [R], leaving a value of type [A]
    to the statements after it. *)
Definition stmt (R A : Type) : Type := world -> outcome R A.

#[global] Instance stmt_ret {R} : MRet (stmt R) := fun A a w => Falls a w.
#[global] Instance stmt_bind {R} : MBind (stmt R) := fun A B k m w =>
  match m w with
  | Falls a w' => k a w'
  | Returns r w' => Returns r w'
  | Undefined w' => Undefined w'
  end.

(** [return r;] *)
Definition Return {R A} (r : R) : stmt R A := fun w => Returns r w.

Definition undefined {R A} : stmt R A := fun w => Undefined w.

(** A function: [None] when its behaviour is undefined. *)
Definition func (B : Type) : Type := world -> option B * world.

(** A function whose every path ends in [return]. *)
Definition function {B} (body : stmt B Empty_set) : func B := fun w =>
  match body w with
  | Falls a _ => match a with end
  | Returns r w' => (Some r, w')
  | Undefined w' => (None, w')
  end.

(** A [void] function. *)
Definition procedure (body : stmt unit unit) : func unit := fun w =>
  match body w with
  | Falls _ w' | Returns _ w' => (Some tt, w')
  | Undefined w' => (None, w')
  end.

(** Calling a function of the repository. *)
Definition invoke {R B} (f : func B) : stmt R B := fun w =>
  match f w with
  | (Some b, w') => Falls b w'
  | (None, w') => Undefined w'
  end.

Definition gets {R A} (f : world -> A) : stmt R A := fun w => Falls (f w) w.

Definition set_dev_addr {R} (v : Z) : stmt R unit := fun w =>
  Falls tt {| dev_addr := v; i2c_handle := i2c_handle w; spi_handle := spi_handle w;
              calls := calls w; stdout := stdout w |}.
Definition set_i2c_handle {R} (v : Z) : stmt R unit := fun w =>
  Falls tt {| dev_addr := dev_addr w; i2c_handle := v; spi_handle := spi_handle w;
              calls := calls w; stdout := stdout w |}.
Definition set_spi_handle {R} (v : Z) : stmt R unit := fun w =>
  Falls tt {| dev_addr := dev_addr w; i2c_handle := i2c_handle w; spi_handle := v;
              calls := calls w; stdout := stdout w |}.

Definition printf {R} (fmt : string) (args : list printf_arg) : stmt R unit := fun w =>
  Falls tt {| dev_addr := dev_addr w; i2c_handle := i2c_handle w; spi_handle := spi_handle w;
              calls := calls w; stdout := (fmt, args) :: stdout w |}.

(** The world once one more external call is on record. *)
Definition logged (e : event) (w : world) : world :=
  {| dev_addr := dev_addr w; i2c_handle := i2c_handle w; spi_handle := spi_handle w;
     calls := e :: calls w; stdout := stdout w |}.

(** An external call: the platform answers, the event is recorded. *)
Definition extern `{platform} {R T} (c : call T) : stmt R T := fun w =>
  let a := answer_of T (calls w) c in
  Falls a (logged (Event c a) w).

(** ** Arrays *)

(** [char buf[n]] without initialiser, for the [k]-th array of a function.
    A variable length array whose size is not positive is undefined, at its
    declaration. *)
Definition alloca `{platform} {R} (k : nat) (n : Z) : stmt R (list Z) :=
  if decide (0 < n)
  then mret (indeterminate k <$> seq 0 (Z.to_nat n))
  else undefined.

(** [buf[i] = v] *)
Definition store {R} (buf : list Z) (i v : Z) : stmt R (list Z) :=
  if decide (0 <= i < Z.of_nat (length buf))
  then mret (<[Z.to_nat i := v]> buf)
  else undefined.

(** [buf[i]] *)
Definition load {R} (buf : list Z) (i : Z) : stmt R Z :=
  if decide (0 <= i)
  then match buf !! Z.to_nat i with Some v => mret v | None => undefined end
  else undefined.

(** A library that is handed [buf] and [count] and has [bytes] to deliver
    writes the first [count] of them to the front of [buf]; delivering past
    the end of [buf] is undefined. *)
Definition overlay (got buf : list Z) : list Z := got ++ drop (length got) buf.

Definition deliver {R} (buf : list Z) (count : Z) (bytes : list Z) : stmt R (list Z) :=
  let got := take (Z.to_nat count) bytes in
  if decide (length got <= length buf)%nat
  then mret (overlay got buf)
  else undefined.

(** [for (uint32_t i = first; ...; i++) body], for a loop that runs [n]
    times. *)
Fixpoint for_loop {R A} (n : nat) (i : Z) (body : Z -> A -> stmt R A) (a : A) : stmt R A :=
  match n with
  | O => mret a
  | S n' => a' ← body i a; for_loop n' (u32 (i + 1)) body a'
  end.

(** [if (c) { ...; return r; }] *)
Notation "'when' c 'do' s" := (if c then s else mret tt)
  (at level 10, c at level 99, s at level 200, only parsing).

(** ** common.c *)

Section Common.
Context `{!bme69x_defs} `{!platform}.

(** I2C read function using pigpio. Gives the status and what the
    caller's [reg_data] holds afterwards. *)
Definition bme69x_i2c_read (reg_addr : Z) (reg_data : list Z) (len : Z)
    (intf_ptr : data_ptr) : func (Z * list Z) :=
  function (
    h ← gets i2c_handle;
    (when h <? 0 do Return (BME69X_E_COM_FAIL, reg_data));;
    h ← gets i2c_handle;
    result ← extern (i2cWriteDevice h [reg_addr] 1);
    (when result <? 0 do Return (BME69X_E_COM_FAIL, reg_data));;
    h ← gets i2c_handle;
    '(result, bytes) ← extern (i2cReadDevice h len);
    reg_data ← deliver reg_data len bytes;
    (when negb (result =? to_int len) do Return (BME69X_E_COM_FAIL, reg_data));;
    Return (BME69X_INTF_RET_SUCCESS, reg_data)).

(** I2C write function using pigpio. *)
Definition bme69x_i2c_write (reg_addr : Z) (reg_data : list Z) (len : Z)
    (intf_ptr : data_ptr) : func Z :=
  function (
    buffer ← alloca 0 (u32 (len + 1));
    h ← gets i2c_handle;
    (when h <? 0 do Return BME69X_E_COM_FAIL);;
    buffer ← store buffer 0 reg_addr;
    buffer ← for_loop (Z.to_nat len) 0 (fun i buffer =>
      v ← load reg_data i;
      store buffer (u32 (i + 1)) v) buffer;
    h ← gets i2c_handle;
    result ← extern (i2cWriteDevice h buffer (u32 (len + 1)));
    (when result <? 0 do Return BME69X_E_COM_FAIL);;
    Return BME69X_INTF_RET_SUCCESS).

(** SPI read function using pigpio. The loop [for (i = 1; i <= len; i++)]
    runs [len] times: with [len = 2^32 - 1], where it would not end, the
    arrays have size [0] and their declaration is already undefined. *)
Definition bme69x_spi_read (reg_addr : Z) (reg_data : list Z) (len : Z)
    (intf_ptr : data_ptr) : func (Z * list Z) :=
  function (
    tx_buffer ← alloca 0 (u32 (len + 1));
    rx_buffer ← alloca 1 (u32 (len + 1));
    h ← gets spi_handle;
    (when h <? 0 do Return (BME69X_E_COM_FAIL, reg_data));;
    tx_buffer ← store tx_buffer 0 (Z.lor reg_addr 0x80);
    tx_buffer ← for_loop (Z.to_nat len) 1 (fun i tx_buffer =>
      store tx_buffer i 0) tx_buffer;
    h ← gets spi_handle;
    '(result, bytes) ← extern (spiXfer h tx_buffer (u32 (len + 1)));
    rx_buffer ← deliver rx_buffer (u32 (len + 1)) bytes;
    (when result <? 0 do Return (BME69X_E_COM_FAIL, reg_data));;
    reg_data ← for_loop (Z.to_nat len) 0 (fun i reg_data =>
      v ← load rx_buffer (u32 (i + 1));
      store reg_data i v) reg_data;
    Return (BME69X_INTF_RET_SUCCESS, reg_data)).

(** SPI write function using pigpio. *)
Definition bme69x_spi_write (reg_addr : Z) (reg_data : list Z) (len : Z)
    (intf_ptr : data_ptr) : func Z :=
  function (
    tx_buffer ← alloca 0 (u32 (len + 1));
    h ← gets spi_handle;
    (when h <? 0 do Return BME69X_E_COM_FAIL);;
    tx_buffer ← store tx_buffer 0 (Z.land reg_addr 0x7F);
    tx_buffer ← for_loop (Z.to_nat len) 0 (fun i tx_buffer =>
      v ← load reg_data i;
      store tx_buffer (u32 (i + 1)) v) tx_buffer;
    h ← gets spi_handle;
    result ← extern (spiWrite h tx_buffer (u32 (len + 1)));
    (when result <? 0 do Return BME69X_E_COM_FAIL);;
    Return BME69X_INTF_RET_SUCCESS).

(** Delay function using pigpio. *)
Definition bme69x_delay_us (period : Z) (intf_ptr : data_ptr) : func unit :=
  procedure (
    extern (gpioDelay period);;
    mret tt).

(** The [switch] over the status codes: prints, and nothing else. *)
Definition bme69x_check_rslt (api_name : string) (rslt : Z) : func unit :=
  procedure (
    if rslt =? BME69X_OK then mret tt
    else if rslt =? BME69X_E_NULL_PTR then
      printf "API name [%s]  Error [%d] : Null pointer\r\n" [arg_str api_name; arg_int rslt]
    else if rslt =? BME69X_E_COM_FAIL then
      printf "API name [%s]  Error [%d] : Communication failure\r\n"
        [arg_str api_name; arg_int rslt]
    else if rslt =? BME69X_E_INVALID_LENGTH then
      printf "API name [%s]  Error [%d] : Incorrect length parameter\r\n"
        [arg_str api_name; arg_int rslt]
    else if rslt =? BME69X_E_DEV_NOT_FOUND then
      printf "API name [%s]  Error [%d] : Device not found\r\n"
        [arg_str api_name; arg_int rslt]
    else if rslt =? BME69X_E_SELF_TEST then
      printf "API name [%s]  Error [%d] : Self test error\r\n"
        [arg_str api_name; arg_int rslt]
    else if rslt =? BME69X_W_NO_NEW_DATA then
      printf "API name [%s]  Warning [%d] : No new data found\r\n"
        [arg_str api_name; arg_int rslt]
    else
      printf "API name [%s]  Error [%d] : Unknown error code\r\n"
        [arg_str api_name; arg_int rslt]).

(** [bme] is [None] for a null pointer, and else what it points to; the
    result carries what it points to afterwards. The parameter [intf] of
    the source is [intf_sel] here, [intf] being the field. *)
Definition bme69x_interface_init (bme : option bme69x_dev) (intf_sel : Z)
    : func (Z * option bme69x_dev) :=
  function (
    let rslt := BME69X_OK in
    match bme with
    | Some dev =>
        r ← extern gpioInitialise;
        (when r <? 0 do
           printf "Failed to initialize pigpio library\n" [];;
           Return (BME69X_E_COM_FAIL, Some dev));;
        printf "pigpio library initialized successfully\n" [];;
        dev ← (if intf_sel =? BME69X_I2C_INTF then
            printf "I2C Interface\n" [];;
            set_dev_addr BME69X_I2C_ADDR_HIGH;;
            a ← gets dev_addr;
            h ← extern (i2cOpen BME69X_I2C_BUS a 0);
            set_i2c_handle h;;
            h ← gets i2c_handle;
            (when h <? 0 do
               a ← gets dev_addr;
               printf "Failed to open I2C bus %d, device 0x%02X\n"
                 [arg_int BME69X_I2C_BUS; arg_int a];;
               extern gpioTerminate;;
               Return (BME69X_E_COM_FAIL, Some dev));;
            h ← gets i2c_handle;
            printf "I2C connection opened successfully (handle: %d)\n" [arg_int h];;
            mret {| chip_id := chip_id dev; intf_ptr := intf_ptr dev;
                    intf := BME69X_I2C_INTF; amb_temp := amb_temp dev;
                    read := ptr_bme69x_i2c_read; write := ptr_bme69x_i2c_write;
                    delay_us := delay_us dev |}
          else if intf_sel =? BME69X_SPI_INTF then
            printf "SPI Interface\n" [];;
            h ← extern (spiOpen BME69X_SPI_BUS BME69X_SPI_SPEED 0);
            set_spi_handle h;;
            h ← gets spi_handle;
            (when h <? 0 do
               printf "Failed to open SPI bus %d\n" [arg_int BME69X_SPI_BUS];;
               extern gpioTerminate;;
               Return (BME69X_E_COM_FAIL, Some dev));;
            h ← gets spi_handle;
            printf "SPI connection opened successfully (handle: %d)\n" [arg_int h];;
            mret {| chip_id := chip_id dev; intf_ptr := intf_ptr dev;
                    intf := BME69X_SPI_INTF; amb_temp := amb_temp dev;
                    read := ptr_bme69x_spi_read; write := ptr_bme69x_spi_write;
                    delay_us := delay_us dev |}
          else mret dev);
        Return (rslt, Some {| chip_id := chip_id dev; intf_ptr := addr_of_dev_addr;
                              intf := intf dev; amb_temp := 25;
                              read := read dev; write := write dev;
                              delay_us := ptr_bme69x_delay_us |})
    | None =>
        let rslt := BME69X_E_NULL_PTR in
        Return (rslt, None)
    end).

Definition bme69x_pigpio_deinit : func unit :=
  procedure (
    extern fflush_stdout;;
    h ← gets i2c_handle;
    (when 0 <=? h do
       h ← gets i2c_handle;
       extern (i2cClose h);;
       set_i2c_handle (-1));;
    h ← gets spi_handle;
    (when 0 <=? h do
       h ← gets spi_handle;
       extern (spiClose h);;
       set_spi_handle (-1));;
    extern gpioTerminate).

End Common.

(** ** self_test.c *)

Section SelfTest.
Context `{!bme69x_defs} `{!platform}.

(** [f(period, p)] for a function pointer [f] of the type of [delay_us]:
    defined when [f] is the shim's delay function. *)
Definition call_delay_us {R} (f : fn_ptr) (period : Z) (p : data_ptr) : stmt R unit :=
  match f with
  | ptr_bme69x_delay_us => invoke (bme69x_delay_us period p)
  | _ => undefined
  end.

(** [c & mask] taken as a condition. *)
Definition masked (c mask : Z) : bool := negb (Z.land c mask =? 0).

(** Gives the status and what [*dev] holds afterwards. *)
Definition custom_selftest_check (dev : bme69x_dev) : func (Z * bme69x_dev) :=
  function (
    printf "=== BME690 Custom Self-Test ===\n" [];;

    printf "Step 1: Testing basic sensor communication...\n" [];;
    (when negb (chip_id dev =? BME69X_CHIP_ID) do
       printf "❌ Chip ID mismatch: expected 0x%02x, got 0x%02x\n"
         [arg_int BME69X_CHIP_ID; arg_int (chip_id dev)];;
       Return (BME69X_E_DEV_NOT_FOUND, dev));;
    printf "✅ Chip ID correct: 0x%02x\n" [arg_int (chip_id dev)];;

    printf "Step 2: Configuring sensor for measurement...\n" [];;
    '(rslt, conf, dev) ← extern (bme69x_get_conf dev);
    (when negb (rslt =? BME69X_OK) do
       printf "❌ Failed to get configuration\n" [];;
       Return (rslt, dev));;

    let conf := {| filter := BME69X_FILTER_OFF;
                   odr := BME69X_ODR_NONE;
                   os_hum := BME69X_OS_16X;
                   os_pres := BME69X_OS_1X;
                   os_temp := BME69X_OS_2X |} in

    '(rslt, dev) ← extern (bme69x_set_conf conf dev);
    (when negb (rslt =? BME69X_OK) do
       printf "❌ Failed to set configuration\n" [];;
       Return (rslt, dev));;
    printf "✅ Sensor configuration successful\n" [];;

    printf "Step 3: Testing heater configuration...\n" [];;
    let heatr_conf := {| enable := BME69X_ENABLE;
                         heatr_temp := 300;
                         heatr_dur := 100 |} in

    '(rslt, dev) ← extern (bme69x_set_heatr_conf BME69X_FORCED_MODE heatr_conf dev);
    (if negb (rslt =? BME69X_OK) then
       printf "⚠️  Warning: Heater configuration failed (result: %d)\n" [arg_int rslt];;
       printf "    This may indicate heater hardware issues, but other sensors should work\n" []
     else
       printf "✅ Heater configuration successful\n" []);;

    printf "Step 4: Performing measurement...\n" [];;
    '(rslt, dev) ← extern (bme69x_set_op_mode BME69X_FORCED_MODE dev);
    (when negb (rslt =? BME69X_OK) do
       printf "❌ Failed to set forced mode\n" [];;
       Return (rslt, dev));;

    '(del_period, dev) ← extern (bme69x_get_meas_dur BME69X_FORCED_MODE conf dev);
    let del_period := u32 (del_period + heatr_dur heatr_conf * 1000) in

    call_delay_us (delay_us dev) del_period (intf_ptr dev);;

    '(rslt, data, n_fields, dev) ← extern (bme69x_get_data BME69X_FORCED_MODE dev);
    (when negb (rslt =? BME69X_OK) || (n_fields =? 0) do
       printf "❌ Failed to get measurement data\n" [];;
       Return (BME69X_E_COM_FAIL, dev));;

    printf "✅ Measurement data retrieved\n" [];;

    printf "Step 5: Validating measurement ranges...\n" [];;

    (when F32.ltb (temperature data) (F32.of_Z 0)
          || F32.ltb (F32.of_Z 60) (temperature data) do
       printf "❌ Temperature out of valid range: %.2f°C\n" [arg_float (temperature data)];;
       Return (BME69X_E_SELF_TEST, dev));;
    printf "✅ Temperature in valid range: %.2f°C\n" [arg_float (temperature data)];;

    let pressure_hpa := F32.div (pressure data) (F32.of_Z 100) in
    (when F32.ltb pressure_hpa (F32.of_Z 300)
          || F32.ltb (F32.of_Z 1200) pressure_hpa do
       printf "❌ Pressure out of valid range: %.2f hPa\n" [arg_float pressure_hpa];;
       Return (BME69X_E_SELF_TEST, dev));;
    printf "✅ Pressure in valid range: %.2f hPa\n" [arg_float pressure_hpa];;

    (when F32.ltb (humidity data) (F32.of_Z 0)
          || F32.ltb (F32.of_Z 100) (humidity data) do
       printf "❌ Humidity out of valid range: %.2f%%\n" [arg_float (humidity data)];;
       Return (BME69X_E_SELF_TEST, dev));;
    printf "✅ Humidity in valid range: %.2f%%\n" [arg_float (humidity data)];;

    printf "Step 6: Checking gas sensor status...\n" [];;

    (if masked (status data) BME69X_NEW_DATA_MSK
        && masked (status data) BME69X_GASM_VALID_MSK then
       if masked (status data) BME69X_HEAT_STAB_MSK then
         printf "✅ Gas sensor working correctly (resistance: %.0f ohm)\n"
           [arg_float (gas_resistance data)]
       else
         printf "⚠️  Warning: Heater not stable (IDAC: 0x%02x)\n" [arg_int (idac data)];;
         printf "   Gas readings may be inaccurate, but sensor is functional\n" []
     else
       printf "⚠️  Warning: Gas measurement issues detected\n" [];;
       printf "   Temperature, pressure, and humidity sensors are working\n" []);;

    printf "\n=== Self-Test Summary ===\n" [];;
    printf "✅ Basic sensors (T/P/H) are functional\n" [];;
    printf "✅ I2C communication working\n" [];;
    printf "✅ Sensor configuration successful\n" [];;

    (if negb (masked (status data) BME69X_HEAT_STAB_MSK) || (idac data =? 0xFF) then
       printf "⚠️  Warning: Heater not stable (IDAC: 0x%02x)\n" [arg_int (idac data)];;
       printf "   Gas readings may be inaccurate, but sensor is functional\n" []
     else
       printf "✅ All sensors including gas sensor working correctly\n" []);;

    printf "\n🎉 Custom self-test PASSED\n" [];;
    Return (BME69X_OK, dev)).

(** [bme] is what the local [struct bme69x_dev bme] holds before anything
    is assigned to it; the result is the exit code of the process. *)
Definition main (bme : bme69x_dev) : func Z :=
  function (
    '(rslt, p) ← invoke (bme69x_interface_init (Some bme) BME69X_I2C_INTF);
    let bme := default bme p in
    invoke (bme69x_check_rslt "bme69x_interface_init" rslt);;

    '(rslt, bme) ← extern (bme69x_init bme);
    invoke (bme69x_check_rslt "bme69x_init" rslt);;

    '(rslt, bme) ← invoke (custom_selftest_check bme);

    (if rslt =? BME69X_OK then
       printf "\n✅ Overall self-test SUCCESSFUL\n" [];;
       printf "Sensor is ready for use (T/P/H sensors confirmed working)\n" []
     else
       printf "\n❌ Self-test FAILED\n" []);;

    invoke bme69x_pigpio_deinit;;

    Return (if rslt =? BME69X_OK then 0 else 1)).

End SelfTest.

(** ** Reading the history *)

(** The answer of the driver when the event is a call of
    [bme69x_get_data]: status, record and number of fields. *)
Definition measured (e : event) : option (Z * bme69x_data * Z) :=
  match e with
  | Event c a =>
      match c in call T return T -> option (Z * bme69x_data * Z) with
      | bme69x_get_data _ _ => fun '(rslt, data, n_fields, _) => Some (rslt, data, n_fields)
      | _ => fun _ => None
      end a
  end.

(** Whether the event opens or closes a bus, or moves bytes over one. *)
Definition is_open (e : event) : bool :=
  match e with
  | Event (i2cOpen _ _ _) _ | Event (spiOpen _ _ _) _ => true
  | _ => false
  end.

Definition is_close (e : event) : bool :=
  match e with
  | Event (i2cClose _) _ | Event (spiClose _) _ => true
  | _ => false
  end.

Definition is_transfer (e : event) : bool :=
  match e with
  | Event (i2cWriteDevice _ _ _) _ | Event (i2cReadDevice _ _) _
  | Event (spiXfer _ _ _) _ | Event (spiWrite _ _ _) _ => true
  | _ => false
  end.

(** Whether the event is a configuration call of the driver. *)
Definition is_configuration (e : event) : bool :=
  match e with
  | Event (bme69x_get_conf _) _ | Event (bme69x_set_conf _ _) _
  | Event (bme69x_set_heatr_conf _ _ _) _ => true
  | _ => false
  end.

(** ** Scripted platforms, to run the model *)

(** A platform that gives each kind of call one fixed answer; the driver
    leaves the device structure alone, but for [bme69x_init], which stores
    the chip identifier it read. *)
Record script := Script {
  on_gpioInitialise : Z;
  on_i2cOpen : Z;
  on_spiOpen : Z;
  on_i2cWriteDevice : Z;
  on_i2cReadDevice : Z * list Z;
  on_spiXfer : Z * list Z;
  on_spiWrite : Z;
  on_init : Z * Z;
  on_get_conf : Z;
  on_set_conf : Z;
  on_set_heatr_conf : Z;
  on_set_op_mode : Z;
  on_get_meas_dur : Z;
  on_get_data : Z * bme69x_data * Z
}.

Definition scripted (s : script) : platform := {|
  answer_of T _ c :=
    match c in call T return T with
    | gpioInitialise => on_gpioInitialise s
    | gpioTerminate => tt
    | gpioDelay micros => micros
    | i2cOpen _ _ _ => on_i2cOpen s
    | i2cClose _ => 0
    | i2cWriteDevice _ _ _ => on_i2cWriteDevice s
    | i2cReadDevice _ _ => on_i2cReadDevice s
    | spiOpen _ _ _ => on_spiOpen s
    | spiClose _ => 0
    | spiXfer _ _ _ => on_spiXfer s
    | spiWrite _ _ _ => on_spiWrite s
    | fflush_stdout => 0
    | bme69x_init dev =>
        (fst (on_init s),
         {| chip_id := snd (on_init s); intf_ptr := intf_ptr dev; intf := intf dev;
            amb_temp := amb_temp dev; read := read dev; write := write dev;
            delay_us := delay_us dev |})
    | bme69x_get_conf dev => (on_get_conf s, Conf 0 0 0 0 0, dev)
    | bme69x_set_conf _ dev => (on_set_conf s, dev)
    | bme69x_set_heatr_conf _ _ dev => (on_set_heatr_conf s, dev)
    | bme69x_set_op_mode _ dev => (on_set_op_mode s, dev)
    | bme69x_get_meas_dur _ _ dev => (on_get_meas_dur s, dev)
    | bme69x_get_data _ dev => (on_get_data s, dev)
    end;
  indeterminate _ _ := 0xAA
|}.

(** A reading of 25 degrees C, 1013 hPa, 45 percent, with new data, a valid
    gas measurement and a stable heater. *)
Definition fair_weather : bme69x_data := {|
  status := 0xB0;
  idac := 0x20;
  temperature := F32.of_Z 25;
  pressure := F32.of_Z 101300;
  humidity := F32.of_Z 45;
  gas_resistance := F32.of_Z 50000
|}.

(** A board on which everything works. *)
Definition healthy : script := {|
  on_gpioInitialise := 79;
  on_i2cOpen := 0;
  on_spiOpen := 0;
  on_i2cWriteDevice := 0;
  on_i2cReadDevice := (2, [0x12; 0x34]);
  on_spiXfer := (3, [0xFF; 0x12; 0x34]);
  on_spiWrite := 2;
  on_init := (0, 0x61);
  on_get_conf := 0;
  on_set_conf := 0;
  on_set_heatr_conf := 0;
  on_set_op_mode := 0;
  on_get_meas_dur := 5000;
  on_get_data := (0, fair_weather, 1)
|}.

(** What the local [struct bme69x_dev bme] of [main] may hold at first. *)
Definition stack_garbage : bme69x_dev := {|
  chip_id := 0; intf_ptr := addr_other 0; intf := 0; amb_temp := 0;
  read := ptr_other 0; write := ptr_other 0; delay_us := ptr_other 0
|}.

(** A world in which both buses are open, on handle 0. *)
Definition both_open : world :=
  {| dev_addr := 0x77; i2c_handle := 0; spi_handle := 0; calls := []; stdout := [] |}.

(** ** The two transports

    [bme69x_interface_init] installs the I2C pair or the SPI pair of
    callbacks; [Read] and [Write] are the callbacks of a transport, and
    [handle] the static variable they consult. *)
Inductive transport := I2C | SPI.

Definition handle (t : transport) (w : world) : Z :=
  match t with
  | I2C => i2c_handle w
  | SPI => spi_handle w
  end.

Definition Read `{!bme69x_defs} `{!platform} (t : transport)
    : Z -> list Z -> Z -> data_ptr -> func (Z * list Z) :=
  match t with
  | I2C => bme69x_i2c_read
  | SPI => bme69x_spi_read
  end.

Definition Write `{!bme69x_defs} `{!platform} (t : transport)
    : Z -> list Z -> Z -> data_ptr -> func Z :=
  match t with
  | I2C => bme69x_i2c_write
  | SPI => bme69x_spi_write
  end.

(** The external calls made between world [w] and the later world [w'],
    newest first. *)
Definition calls_since (w w' : world) : list event :=
  take (length (calls w') - length (calls w)) (calls w').

(** The primitive a transport hands its write frame to. *)
Definition transmit (t : transport) (h : Z) (frame : list Z) (count : Z) : call Z :=
  match t with
  | I2C => i2cWriteDevice h frame count
  | SPI => spiWrite h frame count
  end.

(** A board whose SPI transfer moves one byte where three were asked for. *)
Definition short_spi : script := {|
  on_gpioInitialise := 79;
  on_i2cOpen := 0;
  on_spiOpen := 0;
  on_i2cWriteDevice := 0;
  on_i2cReadDevice := (2, [0x12; 0x34]);
  on_spiXfer := (1, [0xFF]);
  on_spiWrite := 2;
  on_init := (0, 0x61);
  on_get_conf := 0;
  on_set_conf := 0;
  on_set_heatr_conf := 0;
  on_set_op_mode := 0;
  on_get_meas_dur := 5000;
  on_get_data := (0, fair_weather, 1)
|}.

(** A board on which the pigpio library does not come up. *)
Definition no_gpio : script := {|
  on_gpioInitialise := -1;
  on_i2cOpen := 0;
  on_spiOpen := 0;
  on_i2cWriteDevice := 0;
  on_i2cReadDevice := (2, [0x12; 0x34]);
  on_spiXfer := (3, [0xFF; 0x12; 0x34]);
  on_spiWrite := 2;
  on_init := (0, 0x61);
  on_get_conf := 0;
  on_set_conf := 0;
  on_set_heatr_conf := 0;
  on_set_op_mode := 0;
  on_get_meas_dur := 5000;
  on_get_data := (0, fair_weather, 1)
|}.

(** A board on which the I2C bus cannot be opened. *)
Definition no_i2c : script := {|
  on_gpioInitialise := 79;
  on_i2cOpen := -25;
  on_spiOpen := 0;
  on_i2cWriteDevice := 0;
  on_i2cReadDevice := (2, [0x12; 0x34]);
  on_spiXfer := (3, [0xFF; 0x12; 0x34]);
  on_spiWrite := 2;
  on_init := (0, 0x61);
  on_get_conf := 0;
  on_set_conf := 0;
  on_set_heatr_conf := 0;
  on_set_op_mode := 0;
  on_get_meas_dur := 5000;
  on_get_data := (0, fair_weather, 1)
|}.



(** No bus is open. *)
Definition unopened (w : world) : Prop := i2c_handle w < 0 /\ spi_handle w < 0.

(** ** Vocabulary for the self-test *)

(** The statements of [main] before its call of [custom_selftest_check]:
    they give the device structure and the world with which the self-test
    is entered. *)
Definition main_until_selftest `{!bme69x_defs} `{!platform} (bme : bme69x_dev)
    : func bme69x_dev :=
  function (
    '(rslt, p) ← invoke (bme69x_interface_init (Some bme) BME69X_I2C_INTF);
    let bme := default bme p in
    invoke (bme69x_check_rslt "bme69x_interface_init" rslt);;
    '(rslt, bme) ← extern (bme69x_init bme);
    invoke (bme69x_check_rslt "bme69x_init" rslt);;
    Return bme).

(** [x < lo || x > hi] and [lo <= x && x <= hi] on [float]. *)
Definition outside (lo hi : Z) (x : spec_float) : bool :=
  F32.ltb x (F32.of_Z lo) || F32.ltb (F32.of_Z hi) x.

Definition within (lo hi : Z) (x : spec_float) : bool :=
  F32.leb (F32.of_Z lo) x && F32.leb x (F32.of_Z hi).

(** The pressure of a record, divided by 100. *)
Definition hPa (d : bme69x_data) : spec_float := F32.div (pressure d) (F32.of_Z 100).

(** A record with a reading outside its range, and a record with every
    reading within its range. *)
Definition violates (d : bme69x_data) : bool :=
  outside 0 60 (temperature d) || outside 300 1200 (hPa d) || outside 0 100 (humidity d).

Definition in_range (d : bme69x_data) : bool :=
  within 0 60 (temperature d) && within 300 1200 (hPa d) && within 0 100 (humidity d).

(** The status the driver gave when the event is a call of [bme69x_init],
    and when it is a call of [bme69x_set_heatr_conf]. *)
Definition initialised (e : event) : option Z :=
  match e with
  | Event c a =>
      match c in call T return T -> option Z with
      | bme69x_init _ => fun '(rslt, _) => Some rslt
      | _ => fun _ => None
      end a
  end.

Definition heated (e : event) : option Z :=
  match e with
  | Event c a =>
      match c in call T return T -> option Z with
      | bme69x_set_heatr_conf _ _ _ => fun '(rslt, _) => Some rslt
      | _ => fun _ => None
      end a
  end.

(** What it takes for a step of the self-test other than the heater
    configuration to succeed: the driver gives [BME69X_OK] (and at least one
    field, and a record that passes validation, for [bme69x_get_data]), and
    hands the device structure back with the delay callback of the shim in
    place when the delay is due. *)
Definition succeeded `{!bme69x_defs} (e : event) : Prop :=
  match e with
  | Event c a =>
      match c in call T return T -> Prop with
      | bme69x_get_conf _ => fun '(rslt, _, _) => rslt = BME69X_OK
      | bme69x_set_conf _ _ => fun '(rslt, _) => rslt = BME69X_OK
      | bme69x_set_op_mode _ _ => fun '(rslt, _) => rslt = BME69X_OK
      | bme69x_get_meas_dur _ _ _ => fun '(_, dev) => delay_us dev = ptr_bme69x_delay_us
      | bme69x_get_data _ _ => fun '(rslt, data, n_fields, _) =>
          rslt = BME69X_OK /\ n_fields <> 0 /\ violates data = false
      | _ => fun _ => True
      end a
  end.

(** The C name of the function an event is a call of. *)
Definition name_of (e : event) : string :=
  match e with
  | Event c _ =>
      match c with
      | gpioInitialise => "gpioInitialise"
      | gpioTerminate => "gpioTerminate"
      | gpioDelay _ => "gpioDelay"
      | i2cOpen _ _ _ => "i2cOpen"
      | i2cClose _ => "i2cClose"
      | i2cWriteDevice _ _ _ => "i2cWriteDevice"
      | i2cReadDevice _ _ => "i2cReadDevice"
      | spiOpen _ _ _ => "spiOpen"
      | spiClose _ => "spiClose"
      | spiXfer _ _ _ => "spiXfer"
      | spiWrite _ _ _ => "spiWrite"
      | fflush_stdout => "fflush"
      | bme69x_init _ => "bme69x_init"
      | bme69x_get_conf _ => "bme69x_get_conf"
      | bme69x_set_conf _ _ => "bme69x_set_conf"
      | bme69x_set_heatr_conf _ _ _ => "bme69x_set_heatr_conf"
      | bme69x_set_op_mode _ _ => "bme69x_set_op_mode"
      | bme69x_get_meas_dur _ _ _ => "bme69x_get_meas_dur"
      | bme69x_get_data _ _ => "bme69x_get_data"
      end
  end.

(** The external calls of a self-test that runs to its end, newest
    first. *)
Definition full_sequence : list string :=
  ["bme69x_get_data"; "gpioDelay"; "bme69x_get_meas_dur"; "bme69x_set_op_mode";
   "bme69x_set_heatr_conf"; "bme69x_set_conf"; "bme69x_get_conf"].

(** The line printed when the heater configuration fails. *)
Definition heater_warning (rslt : Z) : string * list printf_arg :=
  ("⚠️  Warning: Heater configuration failed (result: %d)\n", [arg_int rslt]).

(** A board whose driver reports a communication failure from [bme69x_init]
    after it has read the chip identifier, and works from then on. *)
Definition init_fails : script := {|
  on_gpioInitialise := 79;
  on_i2cOpen := 0;
  on_spiOpen := 0;
  on_i2cWriteDevice := 0;
  on_i2cReadDevice := (2, [0x12; 0x34]);
  on_spiXfer := (3, [0xFF; 0x12; 0x34]);
  on_spiWrite := 2;
  on_init := (-2, 0x61);
  on_get_conf := 0;
  on_set_conf := 0;
  on_set_heatr_conf := 0;
  on_set_op_mode := 0;
  on_get_meas_dur := 5000;
  on_get_data := (0, fair_weather, 1)
|}.

(** A board whose heater configuration fails. *)
Definition heater_fails : script := {|
  on_gpioInitialise := 79;
  on_i2cOpen := 0;
  on_spiOpen := 0;
  on_i2cWriteDevice := 0;
  on_i2cReadDevice := (2, [0x12; 0x34]);
  on_spiXfer := (3, [0xFF; 0x12; 0x34]);
  on_spiWrite := 2;
  on_init := (0, 0x61);
  on_get_conf := 0;
  on_set_conf := 0;
  on_set_heatr_conf := -2;
  on_set_op_mode := 0;
  on_get_meas_dur := 5000;
  on_get_data := (0, fair_weather, 1)
|}.

(** A reading of 70 degrees C. *)
Definition heat_wave : bme69x_data := {|
  status := 0xB0;
  idac := 0x20;
  temperature := F32.of_Z 70;
  pressure := F32.of_Z 101300;
  humidity := F32.of_Z 45;
  gas_resistance := F32.of_Z 50000
|}.

Definition too_hot : script := {|
  on_gpioInitialise := 79;
  on_i2cOpen := 0;
  on_spiOpen := 0;
  on_i2cWriteDevice := 0;
  on_i2cReadDevice := (2, [0x12; 0x34]);
  on_spiXfer := (3, [0xFF; 0x12; 0x34]);
  on_spiWrite := 2;
  on_init := (0, 0x61);
  on_get_conf := 0;
  on_set_conf := 0;
  on_set_heatr_conf := 0;
  on_set_op_mode := 0;
  on_get_meas_dur := 5000;
  on_get_data := (0, heat_wave, 1)
|}.

(** A reading whose temperature is NaN, the others as in fair weather. *)
Definition no_temperature : bme69x_data := {|
  status := 0xB0;
  idac := 0x20;
  temperature := S754_nan;
  pressure := F32.of_Z 101300;
  humidity := F32.of_Z 45;
  gas_resistance := F32.of_Z 50000
|}.

Definition nan_temperature : script := {|
  on_gpioInitialise := 79;
  on_i2cOpen := 0;
  on_spiOpen := 0;
  on_i2cWriteDevice := 0;
  on_i2cReadDevice := (2, [0x12; 0x34]);
  on_spiXfer := (3, [0xFF; 0x12; 0x34]);
  on_spiWrite := 2;
  on_init := (0, 0x61);
  on_get_conf := 0;
  on_set_conf := 0;
  on_set_heatr_conf := 0;
  on_set_op_mode := 0;
  on_get_meas_dur := 5000;
  on_get_data := (0, no_temperature, 1)
|}.

(** Readings on the lower and on the upper bounds of the three ranges. *)
Definition lower_bounds : bme69x_data := {|
  status := 0xB0;
  idac := 0x20;
  temperature := F32.of_Z 0;
  pressure := F32.of_Z 30000;
  humidity := F32.of_Z 0;
  gas_resistance := F32.of_Z 50000
|}.

Definition upper_bounds : bme69x_data := {|
  status := 0xB0;
  idac := 0x20;
  temperature := F32.of_Z 60;
  pressure := F32.of_Z 120000;
  humidity := F32.of_Z 100;
  gas_resistance := F32.of_Z 50000
|}.

(** A device structure as Init and the driver leave it on a healthy board. *)
Definition ready : bme69x_dev := {|
  chip_id := 0x61; intf_ptr := addr_of_dev_addr; intf := 1; amb_temp := 25;
  read := ptr_bme69x_i2c_read; write := ptr_bme69x_i2c_write;
  delay_us := ptr_bme69x_delay_us
|}.

(** ** Vocabulary for the life cycle *)

(** The selector value of a transport, and the call that opens its bus. *)
Definition selector `{!bme69x_defs} (t : transport) : Z :=
  match t with
  | I2C => BME69X_I2C_INTF
  | SPI => BME69X_SPI_INTF
  end.

Definition open_call `{!bme69x_defs} (t : transport) : call Z :=
  match t with
  | I2C => i2cOpen BME69X_I2C_BUS BME69X_I2C_ADDR_HIGH 0
  | SPI => spiOpen BME69X_SPI_BUS BME69X_SPI_SPEED 0
  end.

Definition other (t : transport) : transport :=
  match t with
  | I2C => SPI
  | SPI => I2C
  end.

(** The function a pointer stored in the [read] or [write] field of the
    device structure stands for, when it is one of the shim. *)
Definition read_callback `{!bme69x_defs} `{!platform} (f : fn_ptr)
    : option (Z -> list Z -> Z -> data_ptr -> func (Z * list Z)) :=
  match f with
  | ptr_bme69x_i2c_read => Some bme69x_i2c_read
  | ptr_bme69x_spi_read => Some bme69x_spi_read
  | _ => None
  end.

Definition write_callback `{!bme69x_defs} `{!platform} (f : fn_ptr)
    : option (Z -> list Z -> Z -> data_ptr -> func Z) :=
  match f with
  | ptr_bme69x_i2c_write => Some bme69x_i2c_write
  | ptr_bme69x_spi_write => Some bme69x_spi_write
  | _ => None
  end.

(** The handle a close call is made on, when the event is one. *)
Definition closed (e : event) : option (transport * Z) :=
  match e with
  | Event (i2cClose h) _ => Some (I2C, h)
  | Event (spiClose h) _ => Some (SPI, h)
  | _ => None
  end.

(** ** Vocabulary for the traces of the self-test *)

(** The configuration and the heater configuration the self-test programs. *)
Definition programmed_conf `{!bme69x_defs} : bme69x_conf :=
  {| filter := BME69X_FILTER_OFF; odr := BME69X_ODR_NONE; os_hum := BME69X_OS_16X;
     os_pres := BME69X_OS_1X; os_temp := BME69X_OS_2X |}.

Definition programmed_heater `{!bme69x_defs} : bme69x_heatr_conf :=
  {| enable := BME69X_ENABLE; heatr_temp := 300; heatr_dur := 100 |}.

(** An external call the self-test may make, with the arguments it makes it
    with: a driver call in forced mode with the programmed configurations,
    or the delay. *)
Definition as_programmed `{!bme69x_defs} (e : event) : Prop :=
  match e with
  | Event c _ =>
      match c with
      | bme69x_get_conf _ => True
      | bme69x_set_conf conf _ => conf = programmed_conf
      | bme69x_set_heatr_conf op_mode conf _ =>
          op_mode = BME69X_FORCED_MODE /\ conf = programmed_heater
      | bme69x_set_op_mode op_mode _ => op_mode = BME69X_FORCED_MODE
      | bme69x_get_meas_dur op_mode conf _ =>
          op_mode = BME69X_FORCED_MODE /\ conf = programmed_conf
      | bme69x_get_data op_mode _ => op_mode = BME69X_FORCED_MODE
      | gpioDelay _ => True
      | _ => False
      end
  end.

(** The microseconds of a delay call, the duration the driver estimated in
    a call of [bme69x_get_meas_dur], and the status of a driver call whose
    failure ends the self-test with that status. *)
Definition waited (e : event) : option Z :=
  match e with
  | Event (gpioDelay micros) _ => Some micros
  | _ => None
  end.

Definition estimated (e : event) : option Z :=
  match e with
  | Event c a =>
      match c in call T return T -> option Z with
      | bme69x_get_meas_dur _ _ _ => fun '(dur, _) => Some dur
      | _ => fun _ => None
      end a
  end.

Definition aborting (e : event) : option Z :=
  match e with
  | Event c a =>
      match c in call T return T -> option Z with
      | bme69x_get_conf _ => fun '(rslt, _, _) => Some rslt
      | bme69x_set_conf _ _ => fun '(rslt, _) => Some rslt
      | bme69x_set_op_mode _ _ => fun '(rslt, _) => Some rslt
      | _ => fun _ => None
      end a
  end.

(** In a history (newest first), every call of [bme69x_get_data] comes
    right after a delay, which comes right after the call of
    [bme69x_get_meas_dur], and the delay is the estimated duration plus
    100000 microseconds, reduced to 32 bits. *)
Fixpoint paced (evs : list event) : Prop :=
  match evs with
  | [] => True
  | e :: rest =>
      match measured e with
      | Some _ =>
          match rest with
          | d :: m :: _ =>
              exists dur : Z, estimated m = Some dur /\ waited d = Some (u32 (dur + 100000))
          | _ => False
          end
      | None => True
      end
      /\ paced rest
  end.

(** The lines printed between world [w] and the later world [w'], newest
    first, and how many of them have a given format. *)
Definition stdout_since (w w' : world) : list (string * list printf_arg) :=
  take (length (stdout w') - length (stdout w)) (stdout w').

Definition count_format (fmt : string) (lines : list (string * list printf_arg)) : nat :=
  length (List.filter (fun line => String.eqb (fst line) fmt) lines).

Definition heater_not_stable : string :=
  "⚠️  Warning: Heater not stable (IDAC: 0x%02x)\n".

(** A record of three NaN readings. *)
Definition no_numbers : bme69x_data := {|
  status := 0xB0;
  idac := 0x20;
  temperature := S754_nan;
  pressure := S754_nan;
  humidity := S754_nan;
  gas_resistance := F32.of_Z 50000
|}.

Definition all_nan : script := {|
  on_gpioInitialise := 79;
  on_i2cOpen := 0;
  on_spiOpen := 0;
  on_i2cWriteDevice := 0;
  on_i2cReadDevice := (2, [0x12; 0x34]);
  on_spiXfer := (3, [0xFF; 0x12; 0x34]);
  on_spiWrite := 2;
  on_init := (0, 0x61);
  on_get_conf := 0;
  on_set_conf := 0;
  on_set_heatr_conf := 0;
  on_set_op_mode := 0;
  on_get_meas_dur := 5000;
  on_get_data := (0, no_numbers, 1)
|}.

(** A board whose driver cannot set the configuration. *)
Definition no_set_conf : script := {|
  on_gpioInitialise := 79;
  on_i2cOpen := 0;
  on_spiOpen := 0;
  on_i2cWriteDevice := 0;
  on_i2cReadDevice := (2, [0x12; 0x34]);
  on_spiXfer := (3, [0xFF; 0x12; 0x34]);
  on_spiWrite := 2;
  on_init := (0, 0x61);
  on_get_conf := 0;
  on_set_conf := -4;
  on_set_heatr_conf := 0;
  on_set_op_mode := 0;
  on_get_meas_dur := 5000;
  on_get_data := (0, fair_weather, 1)
|}.

(** A board whose driver has no new data: it gives the warning status 2 and
    no field. *)
Definition no_new_data : script := {|
  on_gpioInitialise := 79;
  on_i2cOpen := 0;
  on_spiOpen := 0;
  on_i2cWriteDevice := 0;
  on_i2cReadDevice := (2, [0x12; 0x34]);
  on_spiXfer := (3, [0xFF; 0x12; 0x34]);
  on_spiWrite := 2;
  on_init := (0, 0x61);
  on_get_conf := 0;
  on_set_conf := 0;
  on_set_heatr_conf := 0;
  on_set_op_mode := 0;
  on_get_meas_dur := 5000;
  on_get_data := (2, fair_weather, 0)
|}.

(** A reading with new data and a valid gas measurement, but a heater that
    is not stable. *)
Definition cold_heater : bme69x_data := {|
  status := 0xA0;
  idac := 0x20;
  temperature := F32.of_Z 25;
  pressure := F32.of_Z 101300;
  humidity := F32.of_Z 45;
  gas_resistance := F32.of_Z 50000
|}.

Definition unstable : script := {|
  on_gpioInitialise := 79;
  on_i2cOpen := 0;
  on_spiOpen := 0;
  on_i2cWriteDevice := 0;
  on_i2cReadDevice := (2, [0x12; 0x34]);
  on_spiXfer := (3, [0xFF; 0x12; 0x34]);
  on_spiWrite := 2;
  on_init := (0, 0x61);
  on_get_conf := 0;
  on_set_conf := 0;
  on_set_heatr_conf := 0;
  on_set_op_mode := 0;
  on_get_meas_dur := 5000;
  on_get_data := (0, cold_heater, 1)
|}.

(** * Proofs *)

(** Unfolds the statement combinators. *)
Ltac run :=
  unfold function, procedure, invoke, Return, undefined, gets, extern, printf,
    set_dev_addr, set_i2c_handle, set_spi_handle, alloca,
    mbind, stmt_bind, mret, stmt_ret; cbn [fst snd].

Lemma u32_id (z : Z) : 0 <= z < 2 ^ 32 -> u32 z = z.
Proof. intros; unfold u32; apply Z.mod_small; lia. Qed.

Lemma to_int_id (z : Z) : 0 <= z < 2 ^ 31 -> to_int z = z.
Proof. intros; unfold to_int; destruct (Z.ltb_spec z (2 ^ 31)); lia. Qed.

(** The arrays of [len + 1] elements have a size that is positive. *)
Ltac sized len :=
  rewrite u32_id by lia;
  destruct (decide (0 < len + 1)) as [_|?]; [|lia];
  cbn [fst snd].

(** ** Loops that fill an array *)

Section Loops.
Context {R : Type}.

(** A loop whose [j]-th pass stores [val j] at index [j + off] fills the
    slice between [k + off] and [k + off + n]. *)
Lemma for_loop_stores (val : nat -> Z) (off : nat)
    (body : Z -> list Z -> stmt R (list Z)) (w : world) (len : nat) :
  forall (n k : nat) (buf : list Z),
    Z.of_nat (k + n) < 2 ^ 32 ->
    length buf = len ->
    (k + off + n <= len)%nat ->
    (forall (j : nat) (b : list Z),
        (k <= j < k + n)%nat -> length b = len ->
        body (Z.of_nat j) b w = Falls (<[(j + off)%nat := val j]> b) w) ->
    for_loop n (Z.of_nat k) body buf w
    = Falls (take (k + off) buf ++ (val <$> seq k n) ++ drop (k + off + n) buf) w.
Proof.
  induction n as [|n IH]; intros k buf Hk Hlen Hfit Hbody.
  - cbn. rewrite Nat.add_0_r, take_drop. reflexivity.
  - cbn [for_loop]. unfold mbind, stmt_bind.
    rewrite Hbody by lia.
    replace (u32 (Z.of_nat k + 1)) with (Z.of_nat (S k)) by (rewrite u32_id; lia).
    rewrite IH; [|lia|rewrite length_insert; lia|lia|intros; apply Hbody; lia].
    f_equal. cbn [seq fmap list_fmap].
    assert (Hv : <[(k + off)%nat := val k]> buf !! (k + off)%nat = Some (val k))
      by (apply list_lookup_insert_eq; lia).
    replace (S k + off)%nat with (S (k + off)) by lia.
    rewrite (take_S_r _ _ _ Hv), take_insert_ge by lia.
    rewrite drop_insert_lt by lia.
    replace (S (k + off) + n)%nat with (k + off + S n)%nat by lia.
    rewrite <- app_assoc. reflexivity.
Qed.

(** Reading a list index by index gives its prefix. *)
Lemma fmap_nth_seq (l : list Z) (k n : nat) :
  (k + n <= length l)%nat ->
  (fun j => nth j l 0) <$> seq k n = take n (drop k l).
Proof.
  revert k; induction n as [|n IH]; intros k Hk; [reflexivity|].
  cbn [seq fmap list_fmap].
  destruct (lookup_lt_is_Some_2 l k ltac:(lia)) as [x Hx].
  rewrite (drop_S _ _ _ Hx). cbn [take]. f_equal.
  - apply nth_lookup_Some with (d := 0) in Hx. exact Hx.
  - apply IH. lia.
Qed.

Lemma fmap_const_seq (x : Z) (k n : nat) :
  (fun _ => x) <$> seq k n = replicate n x.
Proof.
  revert k; induction n as [|n IH]; intros k; [reflexivity|].
  cbn [seq replicate]. rewrite fmap_cons, IH. reflexivity.
Qed.
End Loops.

(** ** Array accesses within bounds *)

Lemma store_ok {R} (buf : list Z) (i : nat) (v : Z) (w : world) :
  (i < length buf)%nat ->
  store (R := R) buf (Z.of_nat i) v w = Falls (<[i := v]> buf) w.
Proof.
  intros Hi. unfold store. destruct (decide _) as [_|Hn]; [|lia].
  rewrite Nat2Z.id. reflexivity.
Qed.

Lemma load_ok {R} (buf : list Z) (i : nat) (w : world) :
  (i < length buf)%nat ->
  load (R := R) buf (Z.of_nat i) w = Falls (nth i buf 0) w.
Proof.
  intros Hi. unfold load. destruct (decide _) as [_|Hn]; [|lia].
  rewrite Nat2Z.id.
  destruct (lookup_lt_is_Some_2 buf i Hi) as [x Hx].
  rewrite Hx, (nth_lookup_Some _ _ _ _ Hx). reflexivity.
Qed.

Lemma length_alloca `{!platform} (k : nat) (n : Z) :
  length (indeterminate k <$> seq 0 (Z.to_nat n)) = Z.to_nat n.
Proof. rewrite length_fmap, length_seq. reflexivity. Qed.

(** ** The frames the shim builds *)

Section Frames.
Context `{!bme69x_defs} `{!platform} {R : Type}.

(** [buffer[0] = first], then the loop copying [reg_data] behind it: the
    two write functions build [first :: reg_data[0..len)]. *)
Lemma frame_of_write (first : Z) (reg_data junk : list Z) (n : nat) (w : world)
    (body : Z -> list Z -> stmt R (list Z)) :
  (forall i buffer w', body i buffer w'
     = (v ← load reg_data i; store buffer (u32 (i + 1)) v) w') ->
  Z.of_nat n < 2 ^ 32 - 1 ->
  (n <= length reg_data)%nat ->
  length junk = S n ->
  for_loop n 0 body (<[0%nat := first]> junk) w
  = Falls (first :: take n reg_data) w.
Proof.
  intros Hbody Hn Hdata Hjunk.
  destruct junk as [|x junk]; [discriminate|].
  injection Hjunk as Hjunk.
  rewrite (for_loop_stores (fun j => nth j reg_data 0) 1 _ w (S n) n 0%nat);
    [|lia|cbn; lia|lia|].
  - cbn [take Nat.add list_insert insert app].
    rewrite fmap_nth_seq by lia.
    cbn [drop]. rewrite take_0, drop_0, (drop_ge junk) by lia.
    cbn [app]. rewrite app_nil_r. reflexivity.
  - intros j b Hj Hb. rewrite Hbody. unfold mbind, stmt_bind.
    rewrite load_ok by lia.
    replace (u32 (Z.of_nat j + 1)) with (Z.of_nat (j + 1)) by (rewrite u32_id; lia).
    apply store_ok. lia.
Qed.

(** [tx_buffer[0] = first], then the loop clearing what is behind it: the
    SPI read function builds [first] followed by [len] zeros. *)
Lemma frame_of_read (first : Z) (junk : list Z) (n : nat) (w : world)
    (body : Z -> list Z -> stmt R (list Z)) :
  (forall i tx_buffer w', body i tx_buffer w' = store tx_buffer i 0 w') ->
  Z.of_nat n < 2 ^ 32 - 1 ->
  length junk = S n ->
  for_loop n 1 body (<[0%nat := first]> junk) w
  = Falls (first :: replicate n 0) w.
Proof.
  intros Hbody Hn Hjunk.
  destruct junk as [|x junk]; [discriminate|].
  injection Hjunk as Hjunk.
  rewrite (for_loop_stores (fun _ => 0) 0 _ w (S n) n 1%nat);
    [|lia|cbn; lia|lia|].
  - cbn [take Nat.add list_insert insert app].
    rewrite fmap_const_seq.
    cbn [drop]. rewrite (drop_ge junk) by lia.
    cbn [app]. rewrite app_nil_r. reflexivity.
  - intros j b Hj Hb. rewrite Hbody, Nat.add_0_r. apply store_ok. lia.
Qed.

(** The loop copying [rx_buffer[1..len]] to the front of [reg_data]. *)
Lemma copy_of_read (rx_buffer reg_data : list Z) (n : nat) (w : world)
    (body : Z -> list Z -> stmt R (list Z)) :
  (forall i reg_data w', body i reg_data w'
     = (v ← load rx_buffer (u32 (i + 1)); store reg_data i v) w') ->
  Z.of_nat n < 2 ^ 32 - 1 ->
  (n <= length reg_data)%nat ->
  length rx_buffer = S n ->
  for_loop n 0 body reg_data w
  = Falls (take n (drop 1 rx_buffer) ++ drop n reg_data) w.
Proof.
  intros Hbody Hn Hdata Hrx.
  rewrite (for_loop_stores (fun j => nth (j + 1) rx_buffer 0) 0 _ w (length reg_data) n 0%nat);
    [|lia|reflexivity|lia|].
  - cbn [Nat.add]. rewrite take_0. cbn [app]. do 2 f_equal.
    destruct rx_buffer as [|x rx]; [discriminate|]. injection Hrx as Hrx.
    cbn [drop]. rewrite drop_0.
    transitivity ((fun j => nth j rx 0) <$> seq 0 n).
    + apply list_fmap_ext. intros _ j _. rewrite Nat.add_1_r. reflexivity.
    + rewrite fmap_nth_seq by lia. rewrite drop_0. reflexivity.
  - intros j b Hj Hb. rewrite Hbody. unfold mbind, stmt_bind.
    replace (u32 (Z.of_nat j + 1)) with (Z.of_nat (j + 1)) by (rewrite u32_id; lia).
    rewrite load_ok by lia.
    rewrite Nat.add_0_r. apply store_ok. lia.
Qed.
End Frames.

Lemma store_first {R} (buf : list Z) (v : Z) (w : world) :
  (0 < length buf)%nat ->
  store (R := R) buf 0 v w = Falls (<[0%nat := v]> buf) w.
Proof. exact (store_ok buf 0 v w). Qed.

Lemma deliver_ok {R} (buf : list Z) (count : Z) (bytes : list Z) (w : world) :
  0 <= count <= Z.of_nat (length buf) ->
  deliver (R := R) buf count bytes w
  = Falls (overlay (take (Z.to_nat count) bytes) buf) w.
Proof.
  intros Hc. unfold deliver. destruct (decide _) as [_|Hn]; [reflexivity|].
  exfalso. apply Hn. rewrite length_take. lia.
Qed.

Lemma length_overlay (got buf : list Z) :
  (length got <= length buf)%nat -> length (overlay got buf) = length buf.
Proof. intros Hl. unfold overlay. rewrite length_app, length_drop. lia. Qed.

(** ** The four bus callbacks on an open handle *)

Section OpenHandle.
Context `{!bme69x_defs} `{!platform}.
Variables (reg_addr : Z) (reg_data : list Z) (len : Z) (p : data_ptr) (w : world).
Hypothesis Hlen : 0 <= len < 2 ^ 32 - 1.
Hypothesis Hdata : len <= Z.of_nat (length reg_data).

Lemma i2c_write_open :
  0 <= i2c_handle w ->
  let frame := reg_addr :: take (Z.to_nat len) reg_data in
  let sent := i2cWriteDevice (i2c_handle w) frame (len + 1) in
  let result := answer_of Z (calls w) sent in
  bme69x_i2c_write reg_addr reg_data len p w
  = (Some (if result <? 0 then BME69X_E_COM_FAIL else BME69X_INTF_RET_SUCCESS),
     logged (Event sent result) w).
Proof.
  intros Hopen frame sent result. unfold bme69x_i2c_write. run.
  sized len.
  destruct (Z.ltb_spec (i2c_handle w) 0) as [|_]; [lia|].
  rewrite store_first by (rewrite length_alloca; lia).
  rewrite (frame_of_write reg_addr reg_data _ (Z.to_nat len));
    [|reflexivity|lia|lia|rewrite length_alloca; lia].
  fold frame. fold sent. fold result.
  destruct (result <? 0); reflexivity.
Qed.

Lemma spi_write_open :
  0 <= spi_handle w ->
  let frame := Z.land reg_addr 0x7F :: take (Z.to_nat len) reg_data in
  let sent := spiWrite (spi_handle w) frame (len + 1) in
  let result := answer_of Z (calls w) sent in
  bme69x_spi_write reg_addr reg_data len p w
  = (Some (if result <? 0 then BME69X_E_COM_FAIL else BME69X_INTF_RET_SUCCESS),
     logged (Event sent result) w).
Proof.
  intros Hopen frame sent result. unfold bme69x_spi_write. run.
  sized len.
  destruct (Z.ltb_spec (spi_handle w) 0) as [|_]; [lia|].
  rewrite store_first by (rewrite length_alloca; lia).
  rewrite (frame_of_write (Z.land reg_addr 0x7F) reg_data _ (Z.to_nat len));
    [|reflexivity|lia|lia|rewrite length_alloca; lia].
  fold frame. fold sent. fold result.
  destruct (result <? 0); reflexivity.
Qed.

Lemma spi_read_open :
  0 <= spi_handle w ->
  let frame := Z.lor reg_addr 0x80 :: replicate (Z.to_nat len) 0 in
  let sent := spiXfer (spi_handle w) frame (len + 1) in
  let answer := answer_of _ (calls w) sent in
  let rx_buffer :=
    overlay (take (Z.to_nat (len + 1)) (snd answer))
            (indeterminate 1 <$> seq 0 (Z.to_nat (len + 1))) in
  bme69x_spi_read reg_addr reg_data len p w
  = (Some (if fst answer <? 0 then (BME69X_E_COM_FAIL, reg_data)
           else (BME69X_INTF_RET_SUCCESS,
                 take (Z.to_nat len) (drop 1 rx_buffer) ++ drop (Z.to_nat len) reg_data)),
     logged (Event sent answer) w).
Proof.
  intros Hopen frame sent answer rx_buffer. unfold bme69x_spi_read. run.
  sized len.
  destruct (Z.ltb_spec (spi_handle w) 0) as [|_]; [lia|].
  rewrite store_first by (rewrite length_alloca; lia).
  rewrite (frame_of_read (Z.lor reg_addr 0x80) _ (Z.to_nat len));
    [|reflexivity|lia|rewrite length_alloca; lia].
  fold frame. fold sent. fold answer.
  destruct answer as [result bytes] eqn:Ha. cbn [fst snd] in *.
  rewrite deliver_ok by (rewrite length_alloca; lia).
  fold rx_buffer.
  destruct (result <? 0); [reflexivity|].
  rewrite (copy_of_read rx_buffer reg_data (Z.to_nat len));
    [reflexivity|reflexivity|lia|lia|].
  unfold rx_buffer. rewrite length_overlay; rewrite ?length_take, length_alloca; lia.
Qed.
End OpenHandle.

(** The I2C read on an open handle: the address goes out, then [len] bytes
    are asked for. *)
Lemma i2c_read_open `{!bme69x_defs} `{!platform}
    (reg_addr : Z) (reg_data : list Z) (len : Z) (p : data_ptr) (w : world) :
  0 <= len <= Z.of_nat (length reg_data) ->
  0 <= i2c_handle w ->
  let addressed := i2cWriteDevice (i2c_handle w) [reg_addr] 1 in
  let r1 := answer_of _ (calls w) addressed in
  let w1 := logged (Event addressed r1) w in
  let asked := i2cReadDevice (i2c_handle w) len in
  let a2 := answer_of _ (calls w1) asked in
  bme69x_i2c_read reg_addr reg_data len p w
  = if r1 <? 0 then (Some (BME69X_E_COM_FAIL, reg_data), w1)
    else (Some (if fst a2 =? to_int len then BME69X_INTF_RET_SUCCESS
                else BME69X_E_COM_FAIL,
                overlay (take (Z.to_nat len) (snd a2)) reg_data),
          logged (Event asked a2) w1).
Proof.
  intros Hlen Hopen addressed r1 w1 asked a2. unfold bme69x_i2c_read. run.
  destruct (Z.ltb_spec (i2c_handle w) 0) as [|_]; [lia|].
  fold addressed. fold r1. fold w1.
  destruct (r1 <? 0); [reflexivity|].
  change (i2c_handle w1) with (i2c_handle w). fold asked. fold a2.
  destruct a2 as [result bytes]. cbn [fst snd].
  rewrite deliver_ok by lia.
  destruct (result =? to_int len); reflexivity.
Qed.

(** ** Claims about the bus shim *)

(** C1 (as amended). On a transport whose handle is open, and for a length
    below [2^32 - 1] of an array that holds as many bytes, Write hands the
    transfer primitive one frame and makes no other external call. The
    frame has [len + 1] bytes, and so does the count passed with it. Bytes
    [1..len] are the caller's bytes in order. Byte 0 is the register address
    on I2C; on SPI it is the register address with its top bit cleared,
    which is the register address itself when that is below [0x80]. *)
Theorem write_frame `{!bme69x_defs} `{!platform}
    (t : transport) (reg_addr : Z) (reg_data : list Z) (len : Z) (p : data_ptr)
    (w : world) :
  0 <= len < 2 ^ 32 - 1 ->
  len <= Z.of_nat (length reg_data) ->
  0 <= handle t w ->
  let byte0 := match t with I2C => reg_addr | SPI => Z.land reg_addr 0x7F end in
  let frame := byte0 :: take (Z.to_nat len) reg_data in
  let sent := transmit t (handle t w) frame (len + 1) in
  snd (Write t reg_addr reg_data len p w)
    = logged (Event sent (answer_of Z (calls w) sent)) w
  /\ Z.of_nat (length frame) = len + 1
  /\ (forall i : nat, Z.of_nat i < len -> frame !! S i = reg_data !! i)
  /\ (0 <= reg_addr < 0x80 -> byte0 = reg_addr).
Proof.
  intros Hlen Hdata Hopen byte0 frame sent. repeat split.
  - destruct t; cbn [Write handle transmit] in *.
    + rewrite i2c_write_open by assumption. reflexivity.
    + rewrite spi_write_open by assumption. reflexivity.
  - unfold frame. cbn [length]. rewrite length_take. lia.
  - intros i Hi. unfold frame. cbn [lookup list_lookup].
    apply lookup_take_lt. lia.
  - intros Hreg. destruct t; [reflexivity|]. unfold byte0.
    change 0x7F with (Z.ones 7). rewrite Z.land_ones by lia.
    apply Z.mod_small. change (2 ^ 7) with 0x80. lia.
Qed.

(** The theorem at work: an I2C write of two bytes to register [0xF4]. *)
Lemma write_frame_witness :
  snd (@Write bosch_defs (scripted healthy) I2C 0xF4 [0x25; 0x07] 2 addr_of_dev_addr both_open)
  = logged (Event (i2cWriteDevice 0 [0xF4; 0x25; 0x07] 3) 0) both_open.
Proof.
  destruct (@write_frame bosch_defs (scripted healthy) I2C 0xF4 [0x25; 0x07] 2
              addr_of_dev_addr both_open) as [Hsent _].
  - lia.
  - simpl. lia.
  - simpl. lia.
  - exact Hsent.
Defined.

(** C1 fails as stated: the SPI write of register [0xF4] sends [0x74] as
    byte 0. *)
Lemma spi_write_frame_starts_with_masked_address :
  snd (@Write bosch_defs (scripted healthy) SPI 0xF4 [0x25] 1 addr_of_dev_addr both_open)
  = logged (Event (spiWrite 0 [0x74; 0x25] 2) 2) both_open
  /\ [0x74; 0x25] !! 0%nat <> Some 0xF4.
Proof. split; [reflexivity|discriminate]. Qed.

(** C2. On an open SPI handle, for a length below [2^32 - 1] of an array
    that holds as many bytes: the frame SPI Read transmits starts with the
    register address with bit 7 set, followed by [len] zero bytes; when the
    transfer reports no error, the caller's buffer receives bytes [1..len]
    of the receive buffer, which are bytes [1..len] of what the transfer
    delivered when it delivered all [len + 1] bytes; the frame SPI Write
    transmits starts with the register address with bit 7 cleared. *)
Theorem spi_address_bit `{!bme69x_defs} `{!platform}
    (reg_addr : Z) (reg_data : list Z) (len : Z) (p : data_ptr) (w : world) :
  0 <= len < 2 ^ 32 - 1 ->
  len <= Z.of_nat (length reg_data) ->
  0 <= spi_handle w ->
  let request := Z.lor reg_addr 0x80 :: replicate (Z.to_nat len) 0 in
  let xfer := spiXfer (spi_handle w) request (len + 1) in
  let answer := answer_of _ (calls w) xfer in
  let rx_buffer :=
    overlay (take (Z.to_nat (len + 1)) (snd answer))
            (indeterminate 1 <$> seq 0 (Z.to_nat (len + 1))) in
  let command := Z.land reg_addr 0x7F :: take (Z.to_nat len) reg_data in
  let sent := spiWrite (spi_handle w) command (len + 1) in
  (snd (bme69x_spi_read reg_addr reg_data len p w) = logged (Event xfer answer) w
   /\ Z.testbit (Z.lor reg_addr 0x80) 7 = true)
  /\ (0 <= fst answer ->
      fst (bme69x_spi_read reg_addr reg_data len p w)
      = Some (BME69X_INTF_RET_SUCCESS,
              take (Z.to_nat len) (drop 1 rx_buffer) ++ drop (Z.to_nat len) reg_data))
  /\ (len + 1 <= Z.of_nat (length (snd answer)) ->
      take (Z.to_nat len) (drop 1 rx_buffer) = take (Z.to_nat len) (drop 1 (snd answer)))
  /\ (snd (bme69x_spi_write reg_addr reg_data len p w)
      = logged (Event sent (answer_of Z (calls w) sent)) w
      /\ Z.testbit (Z.land reg_addr 0x7F) 7 = false).
Proof.
  intros Hlen Hdata Hopen request xfer answer rx_buffer command sent.
  pose proof (spi_read_open reg_addr reg_data len p w Hlen Hdata Hopen) as Hread.
  cbv zeta in Hread. fold request xfer answer rx_buffer in Hread.
  repeat split.
  - rewrite Hread. reflexivity.
  - rewrite Z.lor_spec. apply orb_true_r.
  - intros Hok. rewrite Hread.
    destruct (Z.ltb_spec (fst answer) 0); [lia|reflexivity].
  - intros Hfull. unfold rx_buffer, overlay.
    rewrite drop_app_le by (rewrite length_take; lia).
    rewrite take_app_le; [|rewrite length_drop, length_take; lia].
    replace (Z.to_nat (len + 1)) with (1 + Z.to_nat len)%nat by lia.
    rewrite !take_drop_commute, take_take, Nat.min_id. reflexivity.
  - rewrite spi_write_open by assumption. reflexivity.
  - rewrite Z.land_spec. apply andb_false_r.
Qed.

(** The theorem at work: an SPI read of two bytes from register [0x1D]. *)
Lemma spi_address_bit_witness :
  snd (@bme69x_spi_read bosch_defs (scripted healthy) 0x1D [0; 0; 9] 2 addr_of_dev_addr both_open)
  = logged (Event (spiXfer 0 [0x9D; 0; 0] 3) (3, [0xFF; 0x12; 0x34])) both_open
  /\ fst (@bme69x_spi_read bosch_defs (scripted healthy) 0x1D [0; 0; 9] 2 addr_of_dev_addr
            both_open)
     = Some (0, [0x12; 0x34; 9]).
Proof.
  destruct (@spi_address_bit bosch_defs (scripted healthy) 0x1D [0; 0; 9] 2
              addr_of_dev_addr both_open) as [[Hsent _] [Hcopy _]].
  - lia.
  - simpl. lia.
  - simpl. lia.
  - split; [exact Hsent|]. apply Hcopy. simpl. lia.
Defined.

(** With a negative handle the callbacks return at once: the I2C read for
    every length, and all four for a length whose frame array has a size
    (the frame arrays are declared before the handle is looked at). *)
Lemma unopened_handle_closed `{!bme69x_defs} `{!platform}
    (t : transport) (reg_addr : Z) (reg_data : list Z) (len : Z) (p : data_ptr)
    (w : world) :
  (i2c_handle w < 0 ->
   bme69x_i2c_read reg_addr reg_data len p w = (Some (BME69X_E_COM_FAIL, reg_data), w))
  /\ (handle t w < 0 ->
      0 <= len < 2 ^ 32 - 1 ->
      Read t reg_addr reg_data len p w = (Some (BME69X_E_COM_FAIL, reg_data), w)
      /\ Write t reg_addr reg_data len p w = (Some BME69X_E_COM_FAIL, w)).
Proof.
  split.
  - intros Hclosed. unfold bme69x_i2c_read. run.
    destruct (Z.ltb_spec (i2c_handle w) 0); [reflexivity|lia].
  - intros Hclosed Hlen.
    destruct t; cbn [handle Read Write] in *;
      unfold bme69x_i2c_read, bme69x_i2c_write, bme69x_spi_read, bme69x_spi_write; run;
      try sized len;
      match goal with |- context [?x <? 0] => destruct (Z.ltb_spec x 0) end;
      first [split; reflexivity | lia].
Qed.

(** A frame array of [2^32 - 1 + 1] elements has no size: for that length
    the three callbacks that declare one are undefined at the declaration,
    whatever the handle is, and make no external call. *)
Lemma frame_without_size `{!bme69x_defs} `{!platform}
    (t : transport) (reg_addr : Z) (reg_data : list Z) (p : data_ptr) (w : world) :
  Write t reg_addr reg_data (2 ^ 32 - 1) p w = (None, w)
  /\ bme69x_spi_read reg_addr reg_data (2 ^ 32 - 1) p w = (None, w).
Proof.
  split; [destruct t; cbn [Write]|];
    unfold bme69x_i2c_write, bme69x_spi_write, bme69x_spi_read; run;
    change (u32 (2 ^ 32 - 1 + 1)) with 0;
    destruct (decide (0 < 0)); first [lia | reflexivity].
Qed.

(** C3 (as amended). When the handle is negative, the I2C Read gives the
    communication-failure status for every length, and Read and Write on
    either transport give it for every length below [2^32 - 1]. The world is
    left as it was: no external call is made, and the caller's buffer is
    returned as it came. *)
Theorem unopened_handle_fails_at_once `{!bme69x_defs} `{!platform}
    (t : transport) (reg_addr : Z) (reg_data : list Z) (len : Z) (p : data_ptr)
    (w : world) :
  (i2c_handle w < 0 ->
   bme69x_i2c_read reg_addr reg_data len p w = (Some (BME69X_E_COM_FAIL, reg_data), w))
  /\ (handle t w < 0 ->
      0 <= len < 2 ^ 32 - 1 ->
      Read t reg_addr reg_data len p w = (Some (BME69X_E_COM_FAIL, reg_data), w)
      /\ Write t reg_addr reg_data len p w = (Some BME69X_E_COM_FAIL, w)).
Proof. exact (unopened_handle_closed t reg_addr reg_data len p w). Qed.

(** The theorem at work: an SPI read before any bus was opened. *)
Lemma unopened_handle_witness :
  @Read bosch_defs (scripted healthy) SPI 0x1D [7; 8] 2 addr_of_dev_addr initial_world
  = (Some (-2, [7; 8]), initial_world).
Proof.
  destruct (@unopened_handle_fails_at_once bosch_defs (scripted healthy) SPI 0x1D [7; 8] 2
              addr_of_dev_addr initial_world) as [_ Hboth].
  destruct Hboth as [Hread _].
  - simpl. lia.
  - lia.
  - exact Hread.
Defined.

(** C3 fails as stated: before any bus was opened, a Write of [2^32 - 1]
    bytes does not give the communication-failure status; it declares a
    frame array of size 0 before it looks at the handle, which is
    undefined. *)
Lemma unopened_handle_without_frame :
  handle I2C initial_world < 0
  /\ @Write bosch_defs (scripted healthy) I2C 0xF4 [0x25] (2 ^ 32 - 1) addr_of_dev_addr
       initial_world
     = (None, initial_world).
Proof.
  split; [cbn; lia|].
  apply (@frame_without_size bosch_defs (scripted healthy) I2C).
Qed.

(** The status of Read on an open handle, for a length the caller's array
    can hold: I2C Read gives communication failure when writing the address
    reports an error (a negative result) or when the read returns anything
    but the requested length (converted to [int]), and success otherwise;
    SPI Read gives communication failure exactly when the transfer reports
    an error (a negative result), and success otherwise. *)
Lemma read_status `{!bme69x_defs} `{!platform}
    (reg_addr : Z) (reg_data : list Z) (len : Z) (p : data_ptr) (w : world) :
  0 <= len < 2 ^ 32 - 1 ->
  len <= Z.of_nat (length reg_data) ->
  (0 <= i2c_handle w ->
   let addressed := i2cWriteDevice (i2c_handle w) [reg_addr] 1 in
   let r1 := answer_of _ (calls w) addressed in
   let asked := i2cReadDevice (i2c_handle w) len in
   let r2 := fst (answer_of _ (Event addressed r1 :: calls w) asked) in
   fst <$> fst (bme69x_i2c_read reg_addr reg_data len p w)
   = Some (if (r1 <? 0) || negb (r2 =? to_int len)
           then BME69X_E_COM_FAIL else BME69X_INTF_RET_SUCCESS))
  /\ (0 <= spi_handle w ->
      let request := Z.lor reg_addr 0x80 :: replicate (Z.to_nat len) 0 in
      let r := fst (answer_of _ (calls w) (spiXfer (spi_handle w) request (len + 1))) in
      fst <$> fst (bme69x_spi_read reg_addr reg_data len p w)
      = Some (if r <? 0 then BME69X_E_COM_FAIL else BME69X_INTF_RET_SUCCESS)).
Proof.
  intros Hlen Hdata. split; intros Hopen.
  - intros addressed r1 asked r2.
    rewrite i2c_read_open by lia. fold addressed r1 asked.
    destruct (r1 <? 0); [reflexivity|]. cbn [orb].
    change (calls (logged (Event addressed r1) w)) with (Event addressed r1 :: calls w).
    fold r2. destruct (r2 =? to_int len); reflexivity.
  - intros request r.
    rewrite spi_read_open by assumption. fold request r.
    destruct (r <? 0); reflexivity.
Qed.

(** An I2C read of two bytes, both delivered. *)
Lemma read_status_witness :
  fst <$> fst (@bme69x_i2c_read bosch_defs (scripted healthy) 0x1D [0; 0] 2 addr_of_dev_addr
                 both_open)
  = Some 0.
Proof.
  destruct (@read_status bosch_defs (scripted healthy) 0x1D [0; 0] 2 addr_of_dev_addr
              both_open) as [Hi2c _].
  - lia.
  - simpl. lia.
  - apply Hi2c. simpl. lia.
Defined.

(** C4. The code does not do what the claim says of the SPI path: an SPI
    Read of two bytes whose transfer moves one byte of the three requested,
    and reports as much, gives success, where the claim gives communication
    failure; the I2C Read compares the count with the length, and gives
    communication failure when two bytes arrive of three. *)
Theorem spi_read_accepts_short_transfer :
  let run := @bme69x_spi_read bosch_defs (scripted short_spi) 0x1D [0; 0] 2
               addr_of_dev_addr both_open in
  let sibling := @bme69x_i2c_read bosch_defs (scripted healthy) 0x1D [0; 0; 0] 3
                   addr_of_dev_addr both_open in
  snd run = logged (Event (spiXfer 0 [0x9D; 0; 0] 3) (1, [0xFF])) both_open
  /\ fst <$> fst run = Some (@BME69X_INTF_RET_SUCCESS bosch_defs)
  /\ @BME69X_INTF_RET_SUCCESS bosch_defs <> @BME69X_E_COM_FAIL bosch_defs
  /\ head (calls (snd sibling)) = Some (Event (i2cReadDevice 0 3) (2, [0x12; 0x34]))
  /\ fst <$> fst sibling = Some (@BME69X_E_COM_FAIL bosch_defs).
Proof. repeat split. discriminate. Qed.

(** ** Claims about the interface life cycle *)


(** Deinit leaves no bus open, and never has undefined behaviour. *)
Lemma deinit_closes `{!bme69x_defs} `{!platform} (w : world) :
  fst (bme69x_pigpio_deinit w) = Some tt /\ unopened (snd (bme69x_pigpio_deinit w)).
Proof.
  unfold bme69x_pigpio_deinit, unopened. run. cbn [i2c_handle spi_handle logged].
  destruct (Z.leb_spec 0 (i2c_handle w)); cbn [i2c_handle spi_handle logged];
    destruct (Z.leb_spec 0 (spi_handle w)); cbn [i2c_handle spi_handle logged fst snd];
    repeat split; lia.
Qed.





(** C10 (as amended). When the pigpio library comes up, Init with a device
    and a selector that is neither the I2C nor the SPI value gives
    [BME69X_OK]; its only external call is [gpioInitialise], so no bus is
    opened and the handles stay as they are; the read and write pointers of
    the device stay as they are; the delay callback, the context pointer
    and the ambient temperature of 25 are set. *)
Theorem init_with_unknown_interface `{!bme69x_defs} `{!platform}
    (dev : bme69x_dev) (intf_sel : Z) (w : world) :
  intf_sel <> BME69X_I2C_INTF ->
  intf_sel <> BME69X_SPI_INTF ->
  0 <= answer_of Z (calls w) gpioInitialise ->
  let run := bme69x_interface_init (Some dev) intf_sel w in
  fst run = Some (BME69X_OK,
                  Some {| chip_id := chip_id dev; intf_ptr := addr_of_dev_addr;
                          intf := intf dev; amb_temp := 25;
                          read := read dev; write := write dev;
                          delay_us := ptr_bme69x_delay_us |})
  /\ calls (snd run)
     = [Event gpioInitialise (answer_of Z (calls w) gpioInitialise)] ++ calls w
  /\ i2c_handle (snd run) = i2c_handle w
  /\ spi_handle (snd run) = spi_handle w.
Proof.
  intros Hi2c Hspi Hup. unfold bme69x_interface_init. run.
  destruct (Z.ltb_spec (answer_of Z (calls w) gpioInitialise) 0); [lia|].
  destruct (Z.eqb_spec intf_sel BME69X_I2C_INTF); [contradiction|].
  destruct (Z.eqb_spec intf_sel BME69X_SPI_INTF); [contradiction|].
  repeat split.
Qed.

(** The theorem at work: Init with selector 7 on a healthy board. *)
Lemma init_with_unknown_interface_witness :
  fst (@bme69x_interface_init bosch_defs (scripted healthy)
         (Some stack_garbage) 7 initial_world)
  = Some (0, Some {| chip_id := 0; intf_ptr := addr_of_dev_addr; intf := 0;
                     amb_temp := 25; read := ptr_other 0; write := ptr_other 0;
                     delay_us := ptr_bme69x_delay_us |}).
Proof.
  destruct (@init_with_unknown_interface bosch_defs (scripted healthy)
              stack_garbage 7 initial_world) as [Hrun _].
  - simpl. lia.
  - simpl. lia.
  - simpl. lia.
  - exact Hrun.
Defined.

(** C10 fails as stated: when the pigpio library does not come up, Init with
    selector 7 gives communication failure and sets nothing in the device. *)
Lemma init_with_unknown_interface_needs_gpio :
  fst (@bme69x_interface_init bosch_defs (scripted no_gpio)
         (Some stack_garbage) 7 initial_world)
  = Some (@BME69X_E_COM_FAIL bosch_defs, Some stack_garbage)
  /\ @BME69X_E_COM_FAIL bosch_defs <> @BME69X_OK bosch_defs
  /\ delay_us stack_garbage <> ptr_bme69x_delay_us.
Proof. repeat split; discriminate. Qed.

(** ** Walking through the self-test *)

(** Splits on the next decision of the code: the answer of the platform to
    a driver call, a condition, or the delay callback. *)
Ltac branch :=
  match goal with
  | |- context [let '(_, _) := ?a in _] => destruct a
  | H : context [let '(_, _) := ?a in _] |- _ => destruct a
  | |- context [if ?c then _ else _] => destruct c eqn:?
  | H : context [if ?c then _ else _] |- _ => destruct c eqn:?
  | |- context [match delay_us ?d with _ => _ end] => destruct (delay_us d) eqn:?
  | H : context [match delay_us ?d with _ => _ end] |- _ => destruct (delay_us d) eqn:?
  end.

Ltac walk := repeat (branch; cbn [fst snd calls stdout logged i2c_handle spi_handle dev_addr] in * ).

Lemma calls_since_app (w w' : world) (evs : list event) :
  calls w' = evs ++ calls w -> calls_since w w' = evs.
Proof.
  intros Hc. unfold calls_since. rewrite Hc, length_app.
  replace (length evs + length (calls w) - length (calls w))%nat with (length evs) by lia.
  apply take_app_length.
Qed.

(** C6. When the chip identifier of the device differs from
    [BME69X_CHIP_ID], the self-test gives the device-not-found status
    without a single external call, so before any configuration call; when
    it matches, the first external call of the self-test is
    [bme69x_get_conf]. *)
Theorem chip_id_checked_first `{!bme69x_defs} `{!platform} (dev : bme69x_dev) (w : world) :
  let run := custom_selftest_check dev w in
  (chip_id dev <> BME69X_CHIP_ID ->
   fst run = Some (BME69X_E_DEV_NOT_FOUND, dev) /\ calls (snd run) = calls w)
  /\ (chip_id dev = BME69X_CHIP_ID ->
      (Event (bme69x_get_conf dev) (answer_of _ (calls w) (bme69x_get_conf dev)) :: calls w)
        `suffix_of` calls (snd run)).
Proof.
  intros run. unfold run, custom_selftest_check, call_delay_us, bme69x_delay_us. run.
  cbn [calls logged]. split; intros Hid.
  - destruct (Z.eqb_spec (chip_id dev) BME69X_CHIP_ID); [contradiction|].
    cbn. split; reflexivity.
  - destruct (Z.eqb_spec (chip_id dev) BME69X_CHIP_ID); [|contradiction].
    cbn [negb fst snd calls stdout logged i2c_handle spi_handle dev_addr].
    walk; repeat first [reflexivity | apply suffix_cons_r].
Qed.

(** The theorem at work: a device that reports chip identifier [0x60]. *)
Lemma chip_id_checked_first_witness :
  let dev := {| chip_id := 0x60; intf_ptr := addr_of_dev_addr; intf := 1; amb_temp := 25;
                read := ptr_bme69x_i2c_read; write := ptr_bme69x_i2c_write;
                delay_us := ptr_bme69x_delay_us |} in
  fst (@custom_selftest_check bosch_defs (scripted healthy) dev both_open) = Some (-3, dev)
  /\ calls (snd (@custom_selftest_check bosch_defs (scripted healthy) dev both_open)) = [].
Proof.
  intros dev.
  destruct (@chip_id_checked_first bosch_defs (scripted healthy) dev both_open)
    as [Hmismatch _].
  apply Hmismatch. simpl. lia.
Defined.

(** ** Comparisons of floats *)

Lemma SFcompare_swap (x y : spec_float) :
  SFcompare y x = option_map CompOpp (SFcompare x y).
Proof.
  destruct x as [sx|sx| |sx mx ex], y as [sy|sy| |sy my ey]; cbn;
    try destruct sx; try destruct sy; try reflexivity;
    rewrite (Z.compare_antisym ex ey);
    destruct (ex ?= ey); cbn; try reflexivity;
    rewrite (Pos.compare_cont_antisym mx my Eq); reflexivity.
Qed.

Lemma leb_not_ltb (x y : spec_float) : F32.leb x y = true -> F32.ltb y x = false.
Proof.
  unfold F32.leb, F32.ltb, SFleb, SFltb. rewrite (SFcompare_swap x y).
  destruct (SFcompare x y) as [[ | | ]|]; cbn; congruence.
Qed.

Lemma within_not_outside (lo hi : Z) (x : spec_float) :
  within lo hi x = true -> outside lo hi x = false.
Proof.
  unfold within, outside. intros [Hlo Hhi]%andb_prop.
  rewrite (leb_not_ltb _ _ Hlo), (leb_not_ltb _ _ Hhi). reflexivity.
Qed.

Lemma in_range_passes (d : bme69x_data) : in_range d = true -> violates d = false.
Proof.
  unfold in_range, violates.
  intros [[Ht Hp]%andb_prop Hh]%andb_prop.
  rewrite (within_not_outside _ _ _ Ht), (within_not_outside _ _ _ Hp),
    (within_not_outside _ _ _ Hh).
  reflexivity.
Qed.

Lemma compare_decided (x y : spec_float) :
  x <> S754_nan -> y <> S754_nan -> SFcompare x y <> None.
Proof.
  intros Hx Hy. destruct x, y; cbn; try congruence;
    repeat match goal with |- context [if ?b then _ else _] => destruct b end;
    discriminate.
Qed.

Lemma ltb_negb_leb (x y : spec_float) :
  x <> S754_nan -> y <> S754_nan -> F32.ltb x y = negb (F32.leb y x).
Proof.
  intros Hx Hy. unfold F32.ltb, F32.leb, SFltb, SFleb.
  rewrite (SFcompare_swap x y).
  pose proof (compare_decided x y Hx Hy) as Hc.
  destruct (SFcompare x y) as [[ | | ]|]; cbn; congruence.
Qed.

(** For readings that are numbers, the range checks of the code reject a
    record exactly when it is not within the ranges, bounds included. *)
Lemma rejects_what_is_not_in_range (d : bme69x_data) :
  temperature d <> S754_nan ->
  hPa d <> S754_nan ->
  humidity d <> S754_nan ->
  violates d = negb (in_range d).
Proof.
  intros Ht Hp Hh.
  assert (Hrange : forall lo hi x, (0 <= lo <= 1200) -> (0 <= hi <= 1200) ->
            x <> S754_nan -> outside lo hi x = negb (within lo hi x)).
  { intros lo hi x Hlo Hhi Hx. unfold outside, within.
    assert (Hc : forall z, 0 <= z <= 1200 -> F32.of_Z z <> S754_nan).
    { intros z Hz. unfold F32.of_Z, binary_normalize.
      destruct z as [|pz|pz]; [discriminate| |lia].
      assert (Hcases : Z.pos pz <= 1200) by lia.
      clear - Hcases.
      assert (Hall : forallb (fun k => match F32.of_Z (Z.of_nat k) with
                                       | S754_nan => false | _ => true end)
                       (seq 0 1201) = true) by (vm_compute; reflexivity).
      rewrite forallb_forall in Hall.
      specialize (Hall (Pos.to_nat pz)).
      rewrite positive_nat_Z in Hall. unfold F32.of_Z, binary_normalize in Hall.
      intros Hnan. rewrite Hnan in Hall.
      assert (In (Pos.to_nat pz) (seq 0 1201)) by (apply in_seq; lia).
      specialize (Hall ltac:(assumption)). discriminate. }
    rewrite (ltb_negb_leb x (F32.of_Z lo)) by auto.
    rewrite (ltb_negb_leb (F32.of_Z hi) x) by auto.
    rewrite negb_andb. reflexivity. }
  unfold violates, in_range.
  rewrite (Hrange 0 60), (Hrange 300 1200), (Hrange 0 100) by (assumption || lia).
  rewrite !negb_andb. reflexivity.
Qed.

(** ** The parts of [main] *)

Lemma check_rslt_quiet `{!bme69x_defs} `{!platform} (api_name : string) (rslt : Z) (w : world) :
  exists w', bme69x_check_rslt api_name rslt w = (Some tt, w') /\ calls w' = calls w.
Proof.
  unfold bme69x_check_rslt. run.
  repeat match goal with |- context [if ?c then _ else _] => destruct c end;
    eexists; split; reflexivity.
Qed.

Lemma interface_init_defined `{!bme69x_defs} `{!platform}
    (bme : bme69x_dev) (intf_sel : Z) (w : world) :
  exists rslt dev, fst (bme69x_interface_init (Some bme) intf_sel w) = Some (rslt, Some dev).
Proof.
  unfold bme69x_interface_init. run.
  repeat match goal with |- context [if ?c then _ else _] => destruct c end;
    cbn; eexists; eexists; reflexivity.
Qed.

(** [main] gets as far as the self-test whatever the two initialisations
    report, calls the driver's [bme69x_init] on the way, and exits with 0
    when the self-test gives [BME69X_OK] and with 1 when it gives anything
    else. *)
Lemma main_exit_code `{!bme69x_defs} `{!platform} (bme : bme69x_dev) (w : world) :
  let entry := main_until_selftest bme w in
  exists bme0 bme1 : bme69x_dev,
    fst entry = Some bme1
    /\ (exists rslt, In (Event (bme69x_init bme0) (rslt, bme1)) (calls (snd entry)))
    /\ fst (main bme w)
       = match fst (custom_selftest_check bme1 (snd entry)) with
         | Some (rslt, _) => Some (if rslt =? BME69X_OK then 0 else 1)
         | None => None
         end.
Proof.
  intros entry. unfold entry, main, main_until_selftest. run.
  destruct (interface_init_defined bme BME69X_I2C_INTF w) as (r1 & dev1 & Hinit).
  destruct (bme69x_interface_init (Some bme) BME69X_I2C_INTF w) as [o1 w1].
  cbn [fst] in Hinit. subst o1. cbn [default from_option id].
  destruct (check_rslt_quiet "bme69x_interface_init" r1 w1) as (w2 & -> & Hc2).
  destruct (answer_of _ (calls w2) (bme69x_init dev1)) as [r2 bme1] eqn:Hanswer.
  cbv beta iota.
  destruct (check_rslt_quiet "bme69x_init" r2 (logged (Event (bme69x_init dev1) (r2, bme1)) w2))
    as (w3 & -> & Hc3).
  exists dev1, bme1. cbn [fst snd]. split; [reflexivity|]. split.
  - exists r2. rewrite Hc3. cbn. left. reflexivity.
  - destruct (custom_selftest_check bme1 w3) as [[[rslt bme2]|] w4]; [|reflexivity].
    cbn [fst].
    destruct (rslt =? BME69X_OK).
    + match goal with
      | |- context [bme69x_pigpio_deinit ?w5] =>
          destruct (deinit_closes w5) as [Hd _];
          destruct (bme69x_pigpio_deinit w5) as [o5 w6]
      end.
      cbn [fst] in Hd. subst o5. reflexivity.
    + match goal with
      | |- context [bme69x_pigpio_deinit ?w5] =>
          destruct (deinit_closes w5) as [Hd _];
          destruct (bme69x_pigpio_deinit w5) as [o5 w6]
      end.
      cbn [fst] in Hd. subst o5. reflexivity.
Qed.

(** ** Claims about the self-test and [main] *)

(** The external calls of a finished walk, read off the world it ended in. *)
Ltac prefix_of t s :=
  lazymatch t with
  | s => constr:(@nil event)
  | ?x :: ?t' => let r := prefix_of t' s in constr:(x :: r)
  end.

Ltac since_in H :=
  match type of H with
  | context [calls_since ?w ?w'] =>
      let c := eval cbn [calls logged] in (calls w') in
      let p := prefix_of c (calls w) in
      rewrite (calls_since_app w w' p eq_refl) in H
  end.

(** Rewrites the [calls_since] of the goal with the calls written out. *)
Ltac since_goal :=
  repeat match goal with
         | |- context [calls_since ?w ?w'] =>
             let c := eval cbn [calls logged] in (calls w') in
             let pre := prefix_of c (calls w) in
             rewrite (calls_since_app w w' pre eq_refl)
         end.

(** Uses up a membership in a list that is written out. *)
Ltac pick H :=
  repeat match type of H with
         | _ ∈ [] => apply elem_of_nil in H; destruct H
         | _ ∈ _ :: _ => apply elem_of_cons in H; destruct H as [H|H]
         end.

(** Turns the recorded conditions into equations and case splits. *)
Ltac tidy :=
  repeat match goal with
         | E : _ || _ = true |- _ => apply orb_true_iff in E; destruct E as [E|E]
         | E : _ || _ = false |- _ => apply orb_false_iff in E; destruct E
         | E : negb _ = true |- _ => apply negb_true_iff in E
         | E : negb _ = false |- _ => apply negb_false_iff in E
         | E : (?x =? ?x) = false |- _ => rewrite Z.eqb_refl in E; discriminate
         | E : (_ =? _) = true |- _ => apply Z.eqb_eq in E
         | E : (_ =? _) = false |- _ => apply Z.eqb_neq in E
         end.

(** Rewrites [Hv] with the recorded conditions. *)
Ltac settle Hv :=
  repeat match goal with
         | E : ?c = true |- _ =>
             tryif constr_eq E Hv then fail else
             match type of Hv with context [c] => rewrite E in Hv end
         | E : ?c = false |- _ =>
             tryif constr_eq E Hv then fail else
             match type of Hv with context [c] => rewrite E in Hv end
         end;
  cbn [orb] in Hv; rewrite ?orb_true_r in Hv.

(** Once [bme69x_get_data] has answered [BME69X_OK] with a record and a
    number of fields that is not 0, the status of the self-test is decided
    by the validation of that record. *)
Lemma status_of_validation `{!bme69x_defs} `{!platform}
    (dev : bme69x_dev) (w : world) (d : bme69x_data) (n : Z) :
  let run := custom_selftest_check dev w in
  (BME69X_OK, d, n) ∈ omap measured (calls_since w (snd run)) ->
  n <> 0 ->
  fst <$> fst run = Some (if violates d then BME69X_E_SELF_TEST else BME69X_OK).
Proof.
  intros run. unfold run, custom_selftest_check, call_delay_us, bme69x_delay_us. run.
  intros Hd Hn.
  remember (violates d) as v eqn:Hv. unfold violates, outside, hPa in Hv.
  cbn [negb fst snd calls stdout logged i2c_handle spi_handle dev_addr] in *.
  walk; since_in Hd; cbn [omap list_omap measured] in Hd; pick Hd.
  all: injection Hd as <- <- <-.
  all: tidy; try congruence.
  all: settle Hv.
  all: first [discriminate | reflexivity].
Qed.

(** When every step but the heater configuration succeeds, the self-test
    makes every call of its sequence, the calls after the heater
    configuration included, and gives [BME69X_OK]; a heater status other
    than [BME69X_OK] is printed as a warning. *)
Lemma status_without_heater `{!bme69x_defs} `{!platform} (dev : bme69x_dev) (w : world) :
  let run := custom_selftest_check dev w in
  chip_id dev = BME69X_CHIP_ID ->
  Forall succeeded (calls_since w (snd run)) ->
  fst <$> fst run = Some BME69X_OK
  /\ name_of <$> calls_since w (snd run) = full_sequence
  /\ (forall r : Z, r ∈ omap heated (calls_since w (snd run)) -> r <> BME69X_OK ->
      heater_warning r ∈ stdout (snd run)).
Proof.
  intros run. unfold run, custom_selftest_check, call_delay_us, bme69x_delay_us. run.
  intros Hid Hs.
  cbn [negb fst snd calls stdout logged i2c_handle spi_handle dev_addr] in *.
  walk; since_in Hs;
    repeat (apply Forall_cons in Hs; destruct Hs as [? Hs]);
    cbn [succeeded] in *; tidy;
    repeat match goal with E : _ /\ _ |- _ => destruct E end;
    try congruence.
  all: try match goal with
           | Hv : violates _ = false |- _ =>
               unfold violates, outside, hPa in Hv; settle Hv; discriminate
           end.
  all: split; [reflexivity|].
  all: split; [since_goal; reflexivity|].
  all: intros r Hr Hne; since_in Hr; cbn [omap list_omap heated] in Hr; pick Hr; subst r.
  all: try congruence.
  all: unfold heater_warning; cbn [stdout];
    repeat first [apply list_elem_of_here | apply list_elem_of_further].
Qed.

(** C5 (as amended). [main] reports the statuses of the interface
    initialisation and of the driver initialisation and goes on whatever
    they are: it always reaches the self-test, having called [bme69x_init]
    on the way. The exit code is 0 exactly when [custom_selftest_check]
    gives [BME69X_OK], and 1 exactly when it gives any other status. *)
Theorem exit_code_follows_selftest `{!bme69x_defs} `{!platform}
    (bme : bme69x_dev) (w : world) :
  let entry := main_until_selftest bme w in
  exists bme0 bme1 : bme69x_dev,
    fst entry = Some bme1
    /\ (exists rslt, In (Event (bme69x_init bme0) (rslt, bme1)) (calls (snd entry)))
    /\ (forall (rslt : Z) (dev : bme69x_dev),
          fst (custom_selftest_check bme1 (snd entry)) = Some (rslt, dev) ->
          (fst (main bme w) = Some 0 <-> rslt = BME69X_OK)
          /\ (fst (main bme w) = Some 1 <-> rslt <> BME69X_OK)).
Proof.
  intros entry.
  destruct (main_exit_code bme w) as (bme0 & bme1 & Hentry & Hinit & Hexit).
  exists bme0, bme1. split; [exact Hentry|]. split; [exact Hinit|].
  intros rslt dev Hst. fold entry in Hexit. rewrite Hst in Hexit. rewrite Hexit.
  destruct (Z.eqb_spec rslt BME69X_OK); split; split; intros; congruence.
Qed.

(** The theorem at work: the run on a healthy board exits with 0. *)
Lemma exit_code_follows_selftest_witness :
  fst (@main bosch_defs (scripted healthy) stack_garbage initial_world) = Some 0.
Proof.
  destruct (@exit_code_follows_selftest bosch_defs (scripted healthy) stack_garbage
              initial_world) as (bme0 & bme1 & Hentry & _ & Hexit).
  assert (Hready : bme1 = ready).
  { vm_compute in Hentry. injection Hentry as <-. reflexivity. }
  subst bme1. apply (Hexit 0 ready).
  - vm_compute. reflexivity.
  - reflexivity.
Defined.

(** C5 fails as stated: the driver initialisation reports a communication
    failure, the run goes on and exits with 0. *)
Lemma exit_code_ignores_failed_driver_init :
  let run := @main bosch_defs (scripted init_fails) stack_garbage initial_world in
  omap initialised (calls (snd run)) = [@BME69X_E_COM_FAIL bosch_defs]
  /\ @BME69X_E_COM_FAIL bosch_defs <> @BME69X_OK bosch_defs
  /\ fst run = Some 0.
Proof. vm_compute. repeat split. discriminate. Qed.

(** C7 (as amended). Take a run of the self-test in which
    [bme69x_get_data] answered [BME69X_OK] with record [d] and a number of
    fields other than 0, so that [d] reaches validation. If the three
    readings are within their ranges, bounds included, the self-test runs
    to its end and gives [BME69X_OK], and [main] exits with 0. If the
    temperature of [d] is below 0 or above 60, or its pressure divided by
    100 below 300 or above 1200, or its humidity below 0 or above 100, the
    self-test gives the self-test-error status, and [main] exits with 1.
    When the temperature, the pressure divided by 100 and the humidity are
    numbers (not NaN), that is so for every record that is not within the
    ranges. Readings on the bounds are within the ranges. *)
Theorem readings_validated `{!bme69x_defs} `{!platform}
    (dev : bme69x_dev) (w : world) (bme : bme69x_dev) (w0 : world)
    (d : bme69x_data) (n : Z) :
  let run := custom_selftest_check dev w in
  let entry := main_until_selftest bme w0 in
  let numbers :=
    temperature d <> S754_nan /\ hPa d <> S754_nan /\ humidity d <> S754_nan in
  ((BME69X_OK, d, n) ∈ omap measured (calls_since w (snd run)) -> n <> 0 ->
   (in_range d = true -> fst <$> fst run = Some BME69X_OK)
   /\ (violates d = true -> fst <$> fst run = Some BME69X_E_SELF_TEST)
   /\ (numbers -> in_range d = false -> fst <$> fst run = Some BME69X_E_SELF_TEST))
  /\ (forall bme1 : bme69x_dev,
        fst entry = Some bme1 ->
        (BME69X_OK, d, n)
          ∈ omap measured (calls_since (snd entry)
                             (snd (custom_selftest_check bme1 (snd entry)))) ->
        n <> 0 ->
        (in_range d = true -> fst (main bme w0) = Some 0)
        /\ (violates d = true -> BME69X_E_SELF_TEST <> BME69X_OK ->
            fst (main bme w0) = Some 1)
        /\ (numbers -> in_range d = false -> BME69X_E_SELF_TEST <> BME69X_OK ->
            fst (main bme w0) = Some 1))
  /\ in_range lower_bounds = true
  /\ in_range upper_bounds = true.
Proof.
  intros run entry numbers.
  assert (Hrejects : numbers -> in_range d = false -> violates d = true).
  { intros (Ht & Hp & Hh) Hout.
    rewrite (rejects_what_is_not_in_range d Ht Hp Hh), Hout. reflexivity. }
  split; [|split; [|split; reflexivity]].
  - intros Hd Hn.
    pose proof (status_of_validation dev w d n Hd Hn) as Hst. fold run in Hst.
    split; [|split].
    + intros Hin. rewrite (in_range_passes d Hin) in Hst. exact Hst.
    + intros Hv. rewrite Hv in Hst. exact Hst.
    + intros Hnum Hout. rewrite (Hrejects Hnum Hout) in Hst. exact Hst.
  - intros bme1 Hentry Hd Hn.
    pose proof (status_of_validation bme1 (snd entry) d n Hd Hn) as Hst.
    destruct (main_exit_code bme w0) as (bme0 & bme1' & Hentry' & _ & Hexit).
    fold entry in Hentry', Hexit.
    assert (bme1' = bme1) as -> by congruence.
    cbv zeta in Hst.
    destruct (fst (custom_selftest_check bme1 (snd entry))) as [[rslt dev']|];
      [|discriminate].
    cbn in Hst. injection Hst as Hst. rewrite Hexit.
    assert (Hone : violates d = true -> BME69X_E_SELF_TEST <> BME69X_OK ->
              Some (if rslt =? BME69X_OK then 0 else 1) = Some 1).
    { intros Hv Hne. rewrite Hv in Hst. subst rslt.
      destruct (Z.eqb_spec BME69X_E_SELF_TEST BME69X_OK); [contradiction|reflexivity]. }
    split; [|split].
    + intros Hin. rewrite (in_range_passes d Hin) in Hst. subst rslt.
      rewrite Z.eqb_refl. reflexivity.
    + exact Hone.
    + intros Hnum Hout. exact (Hone (Hrejects Hnum Hout)).
Qed.

(** The theorem at work: a reading of 70 degrees C, a number that is not
    within its range. *)
Lemma readings_validated_witness :
  fst <$> fst (@custom_selftest_check bosch_defs (scripted too_hot) ready both_open)
  = Some (-5)
  /\ fst (@main bosch_defs (scripted too_hot) stack_garbage initial_world) = Some 1.
Proof.
  destruct (@readings_validated bosch_defs (scripted too_hot) ready both_open
              stack_garbage initial_world heat_wave 1) as (Hcheck & Hmain & _).
  assert (Hnumbers : temperature heat_wave <> S754_nan /\ hPa heat_wave <> S754_nan
                     /\ humidity heat_wave <> S754_nan)
    by (repeat split; vm_compute; discriminate).
  split.
  - destruct Hcheck as (_ & _ & Hout).
    + vm_compute. apply list_elem_of_here.
    + lia.
    + apply Hout.
      * exact Hnumbers.
      * vm_compute. reflexivity.
  - destruct (Hmain ready) as (_ & _ & Hout).
    + vm_compute. reflexivity.
    + vm_compute. apply list_elem_of_here.
    + lia.
    + apply Hout.
      * exact Hnumbers.
      * vm_compute. reflexivity.
      * simpl. lia.
Defined.

(** C7 fails as stated: a record whose temperature is NaN reaches
    validation; it is not within [0, 60], yet the self-test gives
    [BME69X_OK] and [main] exits with 0. *)
Lemma nan_temperature_passes :
  let run := @custom_selftest_check bosch_defs (scripted nan_temperature) ready both_open in
  omap measured (calls_since both_open (snd run)) = [(0, no_temperature, 1)]
  /\ within 0 60 (temperature no_temperature) = false
  /\ fst <$> fst run = Some (@BME69X_OK bosch_defs)
  /\ fst (@main bosch_defs (scripted nan_temperature) stack_garbage initial_world) = Some 0.
Proof. repeat split; vm_compute; reflexivity. Qed.

(** C8. Take a run of the self-test on a device with the right chip
    identifier in which every step other than the heater configuration
    succeeds. Whatever the heater configuration reports, the self-test goes
    on after it: it sets the operating mode, asks for the duration, waits
    and fetches the data, seven external calls in all; it gives
    [BME69X_OK], and [main] exits with 0. A heater status other than
    [BME69X_OK] is printed as a warning, and is not the status returned. *)
Theorem heater_failure_is_a_warning `{!bme69x_defs} `{!platform}
    (dev : bme69x_dev) (w : world) (bme : bme69x_dev) (w0 : world) :
  let run := custom_selftest_check dev w in
  let entry := main_until_selftest bme w0 in
  (chip_id dev = BME69X_CHIP_ID ->
   Forall succeeded (calls_since w (snd run)) ->
   fst <$> fst run = Some BME69X_OK
   /\ name_of <$> calls_since w (snd run) = full_sequence
   /\ (forall r : Z, r ∈ omap heated (calls_since w (snd run)) -> r <> BME69X_OK ->
       heater_warning r ∈ stdout (snd run) /\ fst <$> fst run <> Some r))
  /\ (forall bme1 : bme69x_dev,
        fst entry = Some bme1 ->
        chip_id bme1 = BME69X_CHIP_ID ->
        Forall succeeded (calls_since (snd entry)
                            (snd (custom_selftest_check bme1 (snd entry)))) ->
        name_of <$> calls_since (snd entry) (snd (custom_selftest_check bme1 (snd entry)))
        = full_sequence
        /\ fst (main bme w0) = Some 0).
Proof.
  intros run entry. split.
  - intros Hid Hs.
    destruct (status_without_heater dev w Hid Hs) as (Hst & Hseq & Hwarn).
    fold run in Hst. split; [exact Hst|]. split; [exact Hseq|].
    intros r Hr Hne. split; [exact (Hwarn r Hr Hne)|].
    rewrite Hst. congruence.
  - intros bme1 Hentry Hid Hs.
    destruct (status_without_heater bme1 (snd entry) Hid Hs) as (Hst & Hseq & _).
    split; [exact Hseq|].
    destruct (main_exit_code bme w0) as (bme0 & bme1' & Hentry' & _ & Hexit).
    fold entry in Hentry', Hexit.
    assert (bme1' = bme1) as -> by congruence.
    destruct (fst (custom_selftest_check bme1 (snd entry))) as [[rslt dev']|];
      [|discriminate].
    cbn in Hst. injection Hst as ->. rewrite Hexit, Z.eqb_refl. reflexivity.
Qed.

(** The theorem at work: a board whose heater configuration reports a
    communication failure. *)
(** Evaluates the list of events a [Forall] goal ranges over. *)
Ltac evaluate_events :=
  match goal with
  | |- Forall _ ?c =>
      let l := eval vm_compute in c in
      replace c with l by (vm_compute; reflexivity)
  end.

Lemma heater_failure_is_a_warning_witness :
  let run := @custom_selftest_check bosch_defs (scripted heater_fails) ready both_open in
  (fst <$> fst run = Some 0
   /\ name_of <$> calls_since both_open (snd run) = full_sequence
   /\ heater_warning (-2) ∈ stdout (snd run))
  /\ fst (@main bosch_defs (scripted heater_fails) stack_garbage initial_world) = Some 0.
Proof.
  intros run.
  destruct (@heater_failure_is_a_warning bosch_defs (scripted heater_fails) ready both_open
              stack_garbage initial_world) as (Hcheck & Hmain).
  split.
  - destruct Hcheck as (Hst & Hseq & Hwarn).
    + reflexivity.
    + evaluate_events.
      repeat (apply Forall_cons_2); try apply Forall_nil_2; cbn [succeeded];
        repeat split; try discriminate; vm_compute; reflexivity.
    + split; [exact Hst|]. split; [exact Hseq|]. apply Hwarn.
      * vm_compute. apply list_elem_of_here.
      * simpl. lia.
  - apply (Hmain ready).
    + vm_compute. reflexivity.
    + reflexivity.
    + evaluate_events.
      repeat (apply Forall_cons_2); try apply Forall_nil_2; cbn [succeeded];
        repeat split; try discriminate; vm_compute; reflexivity.
Defined.

(** * Further properties of the code *)

(** ** Interface life cycle *)

(** X1. An Init that gives any status other than [BME69X_OK] leaves the
    device structure as it was, null pointer included: no callback is
    installed by a failed Init. An Init on a null pointer makes no external
    call at all. *)
Theorem failed_init_keeps_device `{!bme69x_defs} `{!platform}
    (bme : option bme69x_dev) (intf_sel : Z) (w : world) :
  let run := bme69x_interface_init bme intf_sel w in
  (fst <$> fst run <> Some BME69X_OK -> snd <$> fst run = Some bme)
  /\ (bme = None -> run = (Some (BME69X_E_NULL_PTR, None), w)).
Proof.
  unfold bme69x_interface_init. run. split.
  - destruct bme as [dev|]; [|reflexivity].
    repeat match goal with
           | |- context [if ?c then _ else _] => destruct c
           end; cbn; intros Hfail; first [reflexivity | exfalso; apply Hfail; reflexivity].
  - intros ->. reflexivity.
Qed.

Lemma failed_init_keeps_device_witness :
  snd <$> fst (@bme69x_interface_init bosch_defs (scripted no_i2c) (Some stack_garbage) 1
                 initial_world)
  = Some (Some stack_garbage).
Proof.
  destruct (@failed_init_keeps_device bosch_defs (scripted no_i2c) (Some stack_garbage) 1
              initial_world) as [Hkeep _].
  apply Hkeep. vm_compute. discriminate.
Defined.

(** X2. When the GPIO library does not come up, Init gives communication
    failure whatever the selector; [gpioInitialise] is its only external
    call (no bus is opened, and [gpioTerminate] is not called), and the
    handles, the device address and the device structure stay as they
    are. *)
Theorem init_without_gpio `{!bme69x_defs} `{!platform}
    (dev : bme69x_dev) (intf_sel : Z) (w : world) :
  answer_of Z (calls w) gpioInitialise < 0 ->
  let run := bme69x_interface_init (Some dev) intf_sel w in
  fst run = Some (BME69X_E_COM_FAIL, Some dev)
  /\ calls (snd run) = Event gpioInitialise (answer_of Z (calls w) gpioInitialise) :: calls w
  /\ i2c_handle (snd run) = i2c_handle w
  /\ spi_handle (snd run) = spi_handle w
  /\ dev_addr (snd run) = dev_addr w.
Proof.
  intros Hdown. unfold bme69x_interface_init. run.
  destruct (Z.ltb_spec (answer_of Z (calls w) gpioInitialise) 0); [|lia].
  repeat split.
Qed.

Lemma init_without_gpio_witness :
  fst (@bme69x_interface_init bosch_defs (scripted no_gpio) (Some stack_garbage) 1
         initial_world)
  = Some (-2, Some stack_garbage).
Proof.
  destruct (@init_without_gpio bosch_defs (scripted no_gpio) stack_garbage 1 initial_world)
    as [Hrun _].
  - simpl. lia.
  - exact Hrun.
Defined.

(** What Init does once the GPIO library is up and the selector is that of
    transport [t]: it opens the bus of [t] and stores what the open call
    gives in the handle of [t], negative or not. *)
Lemma init_selected `{!bme69x_defs} `{!platform}
    (t : transport) (dev : bme69x_dev) (w : world) :
  (t = SPI -> BME69X_SPI_INTF <> BME69X_I2C_INTF) ->
  let g := answer_of Z (calls w) gpioInitialise in
  let h := answer_of Z (Event gpioInitialise g :: calls w) (open_call t) in
  0 <= g ->
  let run := bme69x_interface_init (Some dev) (selector t) w in
  handle t (snd run) = h
  /\ handle (other t) (snd run) = handle (other t) w
  /\ (t = I2C -> dev_addr (snd run) = BME69X_I2C_ADDR_HIGH)
  /\ (t = SPI -> dev_addr (snd run) = dev_addr w)
  /\ (h < 0 ->
      fst run = Some (BME69X_E_COM_FAIL, Some dev)
      /\ calls (snd run)
         = Event gpioTerminate tt :: Event (open_call t) h :: Event gpioInitialise g :: calls w)
  /\ (0 <= h ->
      fst run
      = Some (BME69X_OK,
              Some {| chip_id := chip_id dev; intf_ptr := addr_of_dev_addr;
                      intf := selector t; amb_temp := 25;
                      read := match t with
                              | I2C => ptr_bme69x_i2c_read
                              | SPI => ptr_bme69x_spi_read
                              end;
                      write := match t with
                               | I2C => ptr_bme69x_i2c_write
                               | SPI => ptr_bme69x_spi_write
                               end;
                      delay_us := ptr_bme69x_delay_us |})
      /\ calls (snd run) = Event (open_call t) h :: Event gpioInitialise g :: calls w).
Proof.
  intros Hsel g h Hup. unfold bme69x_interface_init. run.
  fold g. destruct (Z.ltb_spec g 0); [lia|].
  destruct t; cbn [selector open_call handle other] in *.
  - rewrite Z.eqb_refl.
    cbn [i2c_handle spi_handle dev_addr calls logged fst snd]. fold g. fold h.
    destruct (Z.ltb_spec h 0).
    + destruct (answer_of unit _ gpioTerminate).
      repeat split; first [reflexivity | lia | discriminate].
    + repeat split; first [reflexivity | lia | discriminate].
  - destruct (Z.eqb_spec BME69X_SPI_INTF BME69X_I2C_INTF) as [Heq|_];
      [exfalso; exact (Hsel eq_refl Heq)|].
    rewrite Z.eqb_refl.
    cbn [i2c_handle spi_handle dev_addr calls logged fst snd]. fold g. fold h.
    destruct (Z.ltb_spec h 0).
    + destruct (answer_of unit _ gpioTerminate).
      repeat split; first [reflexivity | lia | discriminate].
    + repeat split; first [reflexivity | lia | discriminate].
Qed.

(** X3. With the GPIO library up and the selector of transport [t], an open
    call that succeeds makes Init give [BME69X_OK]: the handle of [t] is what
    the open call gave, the other handle is untouched, the external calls
    are [gpioInitialise] and the open call with the compiled-in bus
    constants, and the callbacks installed in the device structure are the
    Read and Write of that same transport, next to the delay callback, the
    context pointer and the ambient temperature of 25. *)
Theorem init_opens_selected_bus `{!bme69x_defs} `{!platform}
    (t : transport) (dev : bme69x_dev) (w : world) :
  (t = SPI -> BME69X_SPI_INTF <> BME69X_I2C_INTF) ->
  let g := answer_of Z (calls w) gpioInitialise in
  let h := answer_of Z (Event gpioInitialise g :: calls w) (open_call t) in
  0 <= g ->
  0 <= h ->
  let run := bme69x_interface_init (Some dev) (selector t) w in
  exists dev' : bme69x_dev,
    fst run = Some (BME69X_OK, Some dev')
    /\ read_callback (read dev') = Some (Read t)
    /\ write_callback (write dev') = Some (Write t)
    /\ (delay_us dev' = ptr_bme69x_delay_us /\ intf_ptr dev' = addr_of_dev_addr
        /\ amb_temp dev' = 25 /\ intf dev' = selector t /\ chip_id dev' = chip_id dev)
    /\ handle t (snd run) = h
    /\ handle (other t) (snd run) = handle (other t) w
    /\ calls (snd run) = Event (open_call t) h :: Event gpioInitialise g :: calls w.
Proof.
  intros Hsel g h Hup Hopen run.
  destruct (init_selected t dev w Hsel Hup) as (Hh & Ho & _ & _ & _ & Hok).
  destruct (Hok Hopen) as [Hrun Hcalls].
  eexists. split; [exact Hrun|].
  destruct t; repeat split; assumption.
Qed.

Lemma init_opens_selected_bus_witness :
  let run := @bme69x_interface_init bosch_defs (scripted healthy) (Some stack_garbage) 0
               initial_world in
  spi_handle (snd run) = 0 /\ i2c_handle (snd run) = -1
  /\ calls (snd run) = [Event (spiOpen 0 1000000 0) 0; Event gpioInitialise 79].
Proof.
  destruct (@init_opens_selected_bus bosch_defs (scripted healthy) SPI stack_garbage
              initial_world) as (dev' & _ & _ & _ & _ & Hh & Ho & Hcalls).
  - intros _. simpl. lia.
  - simpl. lia.
  - simpl. lia.
  - split; [exact Hh|]. split; [exact Ho|]. exact Hcalls.
Defined.

(** X4. With the GPIO library up and the selector of transport [t], an open
    call that fails makes Init shut the GPIO library down again and give
    communication failure; the negative value is left in the handle of [t],
    so that Read and Write on [t] of a length below [2^32 - 1] fail at once
    afterwards. *)
Theorem init_open_failure `{!bme69x_defs} `{!platform}
    (t : transport) (dev : bme69x_dev) (w : world)
    (reg_addr : Z) (reg_data : list Z) (len : Z) (p : data_ptr) :
  (t = SPI -> BME69X_SPI_INTF <> BME69X_I2C_INTF) ->
  let g := answer_of Z (calls w) gpioInitialise in
  let h := answer_of Z (Event gpioInitialise g :: calls w) (open_call t) in
  0 <= g ->
  h < 0 ->
  let run := bme69x_interface_init (Some dev) (selector t) w in
  fst run = Some (BME69X_E_COM_FAIL, Some dev)
  /\ calls (snd run)
     = Event gpioTerminate tt :: Event (open_call t) h :: Event gpioInitialise g :: calls w
  /\ handle t (snd run) = h
  /\ handle (other t) (snd run) = handle (other t) w
  /\ (0 <= len < 2 ^ 32 - 1 ->
      Read t reg_addr reg_data len p (snd run)
      = (Some (BME69X_E_COM_FAIL, reg_data), snd run)
      /\ Write t reg_addr reg_data len p (snd run) = (Some BME69X_E_COM_FAIL, snd run)).
Proof.
  intros Hsel g h Hup Hfail run.
  destruct (init_selected t dev w Hsel Hup) as (Hh & Ho & _ & _ & Hbad & _).
  destruct (Hbad Hfail) as [Hrun Hcalls].
  fold run in Hh, Ho, Hrun, Hcalls. fold h in Hh.
  assert (Hclosed : handle t (snd run) < 0) by (rewrite Hh; exact Hfail).
  repeat split; try assumption.
  - destruct (unopened_handle_closed t reg_addr reg_data len p (snd run)) as [_ Hboth].
    destruct (Hboth Hclosed ltac:(assumption)) as [Hread _]. exact Hread.
  - destruct (unopened_handle_closed t reg_addr reg_data len p (snd run)) as [_ Hboth].
    destruct (Hboth Hclosed ltac:(assumption)) as [_ Hwrite]. exact Hwrite.
Qed.

Lemma init_open_failure_witness :
  let run := @bme69x_interface_init bosch_defs (scripted no_i2c) (Some stack_garbage) 1
               initial_world in
  fst run = Some (-2, Some stack_garbage)
  /\ calls (snd run)
     = [Event gpioTerminate tt; Event (i2cOpen 1 0x77 0) (-25); Event gpioInitialise 79]
  /\ @Read bosch_defs (scripted no_i2c) I2C 0xD0 [0] 1 addr_of_dev_addr (snd run)
     = (Some (-2, [0]), snd run).
Proof.
  destruct (@init_open_failure bosch_defs (scripted no_i2c) I2C stack_garbage initial_world
              0xD0 [0] 1 addr_of_dev_addr) as (Hrun & Hcalls & _ & _ & Hfail).
  - intros Heq. discriminate Heq.
  - simpl. lia.
  - simpl. lia.
  - split; [exact Hrun|]. split; [exact Hcalls|].
    destruct Hfail as [Hread _]; [lia|exact Hread].
Defined.

(** What Deinit does, for every state of the handles. *)
Lemma deinit_spec `{!bme69x_defs} `{!platform} (w : world) :
  let run := bme69x_pigpio_deinit w in
  fst run = Some tt
  /\ omap closed (calls_since w (snd run))
     = (if 0 <=? spi_handle w then [(SPI, spi_handle w)] else [])
       ++ (if 0 <=? i2c_handle w then [(I2C, i2c_handle w)] else [])
  /\ i2c_handle (snd run) = (if 0 <=? i2c_handle w then -1 else i2c_handle w)
  /\ spi_handle (snd run) = (if 0 <=? spi_handle w then -1 else spi_handle w)
  /\ head (calls (snd run)) = Some (Event gpioTerminate tt)
  /\ last (calls_since w (snd run))
     = Some (Event fflush_stdout (answer_of Z (calls w) fflush_stdout))
  /\ stdout (snd run) = stdout w
  /\ dev_addr (snd run) = dev_addr w.
Proof.
  unfold bme69x_pigpio_deinit. run. cbn [i2c_handle spi_handle logged].
  destruct (0 <=? i2c_handle w); cbn [i2c_handle spi_handle logged];
    destruct (0 <=? spi_handle w); cbn [i2c_handle spi_handle logged calls fst snd];
    repeat match goal with
           | |- context [answer_of unit ?h gpioTerminate] =>
               destruct (answer_of unit h gpioTerminate)
           end;
    repeat match goal with
           | |- context [calls_since w ?w'] =>
               let c := eval cbn [calls logged] in (calls w') in
               let pre := prefix_of c (calls w) in
               rewrite (calls_since_app w w' pre eq_refl)
           end;
    repeat split.
Qed.

(** X5. Deinit closes exactly the handles that are open, the I2C handle
    before the SPI handle, each close call on the value of its handle, and
    sets those handles to -1; a negative handle keeps its value. It flushes
    the output first and shuts the GPIO library down last, whatever the
    handles are, and prints nothing. *)
Theorem deinit_closes_what_is_open `{!bme69x_defs} `{!platform} (w : world) :
  let run := bme69x_pigpio_deinit w in
  fst run = Some tt
  /\ omap closed (calls_since w (snd run))
     = (if 0 <=? spi_handle w then [(SPI, spi_handle w)] else [])
       ++ (if 0 <=? i2c_handle w then [(I2C, i2c_handle w)] else [])
  /\ i2c_handle (snd run) = (if 0 <=? i2c_handle w then -1 else i2c_handle w)
  /\ spi_handle (snd run) = (if 0 <=? spi_handle w then -1 else spi_handle w)
  /\ head (calls (snd run)) = Some (Event gpioTerminate tt)
  /\ last (calls_since w (snd run))
     = Some (Event fflush_stdout (answer_of Z (calls w) fflush_stdout))
  /\ stdout (snd run) = stdout w
  /\ dev_addr (snd run) = dev_addr w.
Proof. exact (deinit_spec w). Qed.

(** X6. From a state with no bus open, an Init that succeeds on transport
    [t] followed by Deinit closes the handle the open call gave, and nothing
    else, and leaves no bus open. *)
Theorem init_then_deinit `{!bme69x_defs} `{!platform}
    (t : transport) (dev : bme69x_dev) (w : world) :
  (t = SPI -> BME69X_SPI_INTF <> BME69X_I2C_INTF) ->
  unopened w ->
  let g := answer_of Z (calls w) gpioInitialise in
  let h := answer_of Z (Event gpioInitialise g :: calls w) (open_call t) in
  0 <= g ->
  0 <= h ->
  let ready_world := snd (bme69x_interface_init (Some dev) (selector t) w) in
  let run := bme69x_pigpio_deinit ready_world in
  omap closed (calls_since ready_world (snd run)) = [(t, h)]
  /\ i2c_handle (snd run) < 0 /\ spi_handle (snd run) < 0.
Proof.
  intros Hsel [Hi Hs] g h Hup Hopen ready_world run.
  pose proof (init_selected t dev w Hsel Hup) as Hinit.
  cbv zeta in Hinit. fold g in Hinit. fold h in Hinit. fold ready_world in Hinit.
  destruct Hinit as (Hh & Ho & _). clearbody h.
  destruct (deinit_spec ready_world) as (_ & Hclosed & Hi' & Hs' & _).
  fold run in Hclosed, Hi', Hs'. rewrite Hclosed, Hi', Hs'.
  destruct t; cbn [handle other] in *; rewrite Hh, Ho.
  - destruct (Z.leb_spec 0 h); [|lia]. destruct (Z.leb_spec 0 (spi_handle w)); [lia|].
    repeat split; lia.
  - destruct (Z.leb_spec 0 h); [|lia]. destruct (Z.leb_spec 0 (i2c_handle w)); [lia|].
    repeat split; lia.
Qed.

Lemma init_then_deinit_witness :
  let ready_world := snd (@bme69x_interface_init bosch_defs (scripted healthy)
                            (Some stack_garbage) 1 initial_world) in
  omap closed (calls_since ready_world
                 (snd (@bme69x_pigpio_deinit (scripted healthy) ready_world)))
  = [(I2C, 0)].
Proof.
  destruct (@init_then_deinit bosch_defs (scripted healthy) I2C stack_garbage initial_world)
    as [Hclosed _].
  - intros Heq. discriminate Heq.
  - unfold unopened. simpl. lia.
  - simpl. lia.
  - simpl. lia.
  - exact Hclosed.
Defined.

(** ** Bus shim *)

(** X7. On an open handle, for a length below [2^32 - 1] of an array that
    holds as many bytes, Write gives communication failure exactly when the
    transfer primitive reports a negative result, and success otherwise:
    the count the primitive reports is not compared with the length. *)
Theorem write_status `{!bme69x_defs} `{!platform}
    (t : transport) (reg_addr : Z) (reg_data : list Z) (len : Z) (p : data_ptr)
    (w : world) :
  0 <= len < 2 ^ 32 - 1 ->
  len <= Z.of_nat (length reg_data) ->
  0 <= handle t w ->
  let byte0 := match t with I2C => reg_addr | SPI => Z.land reg_addr 0x7F end in
  let frame := byte0 :: take (Z.to_nat len) reg_data in
  let result := answer_of Z (calls w) (transmit t (handle t w) frame (len + 1)) in
  fst (Write t reg_addr reg_data len p w)
  = Some (if result <? 0 then BME69X_E_COM_FAIL else BME69X_INTF_RET_SUCCESS).
Proof.
  intros Hlen Hdata Hopen byte0 frame result.
  destruct t; cbn [Write handle transmit] in *.
  - rewrite i2c_write_open by assumption. reflexivity.
  - rewrite spi_write_open by assumption. reflexivity.
Qed.

Lemma write_status_witness :
  fst (@Write bosch_defs (scripted healthy) SPI 0x74 [0x25] 1 addr_of_dev_addr both_open)
  = Some 0.
Proof.
  apply (@write_status bosch_defs (scripted healthy) SPI 0x74 [0x25] 1 addr_of_dev_addr
           both_open).
  - lia.
  - simpl. lia.
  - simpl. lia.
Defined.

(** X8. On an open handle, I2C Read first writes the register address as a
    frame of one byte. When that write reports an error, nothing is read
    and the caller's buffer stays as it was. Otherwise the read primitive is
    asked for [len] bytes, once, and the caller's buffer holds the bytes it
    delivered (at most [len]) in front of what it held behind them before,
    whatever the status. *)
Theorem i2c_read_protocol `{!bme69x_defs} `{!platform}
    (reg_addr : Z) (reg_data : list Z) (len : Z) (p : data_ptr) (w : world) :
  0 <= len <= Z.of_nat (length reg_data) ->
  0 <= i2c_handle w ->
  let addressed := i2cWriteDevice (i2c_handle w) [reg_addr] 1 in
  let r1 := answer_of _ (calls w) addressed in
  let asked := i2cReadDevice (i2c_handle w) len in
  let a2 := answer_of _ (Event addressed r1 :: calls w) asked in
  let got := take (Z.to_nat len) (snd a2) in
  let run := bme69x_i2c_read reg_addr reg_data len p w in
  (r1 < 0 ->
   snd <$> fst run = Some reg_data /\ calls (snd run) = Event addressed r1 :: calls w)
  /\ (0 <= r1 ->
      snd <$> fst run = Some (got ++ drop (length got) reg_data)
      /\ calls (snd run) = Event asked a2 :: Event addressed r1 :: calls w).
Proof.
  intros Hlen Hopen addressed r1 asked a2 got run.
  unfold run. rewrite i2c_read_open by assumption. fold addressed r1 asked.
  change (calls (logged (Event addressed r1) w)) with (Event addressed r1 :: calls w).
  fold a2. split; intros Hr1.
  - destruct (Z.ltb_spec r1 0); [|lia]. split; reflexivity.
  - destruct (Z.ltb_spec r1 0); [lia|]. split; reflexivity.
Qed.

Lemma i2c_read_protocol_witness :
  let run := @bme69x_i2c_read bosch_defs (scripted healthy) 0x1D [0; 0; 9] 2
               addr_of_dev_addr both_open in
  snd <$> fst run = Some [0x12; 0x34; 9]
  /\ calls (snd run)
     = [Event (i2cReadDevice 0 2) (2, [0x12; 0x34]); Event (i2cWriteDevice 0 [0x1D] 1) 0].
Proof.
  destruct (@i2c_read_protocol bosch_defs (scripted healthy) 0x1D [0; 0; 9] 2
              addr_of_dev_addr both_open) as [_ Hok].
  - simpl. lia.
  - simpl. lia.
  - apply Hok. simpl. lia.
Defined.

(** X9. Read never changes the size of the caller's buffer nor anything in
    it from index [len] on, on either transport, whether the handle is open
    or not and whatever the primitives answer. *)
Theorem read_keeps_tail `{!bme69x_defs} `{!platform}
    (t : transport) (reg_addr : Z) (reg_data : list Z) (len : Z) (p : data_ptr)
    (w : world) :
  0 <= len < 2 ^ 32 - 1 ->
  len <= Z.of_nat (length reg_data) ->
  exists (rslt : Z) (reg_data' : list Z),
    fst (Read t reg_addr reg_data len p w) = Some (rslt, reg_data')
    /\ length reg_data' = length reg_data
    /\ drop (Z.to_nat len) reg_data' = drop (Z.to_nat len) reg_data.
Proof.
  intros Hlen Hdata.
  destruct (Z.lt_ge_cases (handle t w) 0) as [Hclosed|Hopen].
  - destruct (unopened_handle_closed t reg_addr reg_data len p w) as [_ Hboth].
    destruct (Hboth Hclosed Hlen) as [-> _].
    eexists _, _. repeat split.
  - destruct t; cbn [Read handle] in *.
    + rewrite i2c_read_open by lia.
      destruct (_ <? 0); cbn [fst]; eexists _, _; (split; [reflexivity|]).
      * split; reflexivity.
      * assert (Hgot : (length (take (Z.to_nat len)
                  (snd (answer_of _ (calls (logged
                     (Event (i2cWriteDevice (i2c_handle w) [reg_addr] 1)
                        (answer_of Z (calls w) (i2cWriteDevice (i2c_handle w) [reg_addr] 1)))
                     w)) (i2cReadDevice (i2c_handle w) len))))
                <= Z.to_nat len)%nat) by (rewrite length_take; lia).
        split.
        -- apply length_overlay. lia.
        -- unfold overlay. rewrite drop_app_ge by lia. rewrite drop_drop.
           f_equal. lia.
    + rewrite spi_read_open by assumption.
      destruct (_ <? 0); cbn [fst]; eexists _, _; (split; [reflexivity|]).
      * split; reflexivity.
      * assert (Hrx : forall rx : list Z,
                  length (take (Z.to_nat len) (drop 1 rx)) = Z.to_nat len ->
                  length (take (Z.to_nat len) (drop 1 rx) ++ drop (Z.to_nat len) reg_data)
                  = length reg_data
                  /\ drop (Z.to_nat len)
                       (take (Z.to_nat len) (drop 1 rx) ++ drop (Z.to_nat len) reg_data)
                     = drop (Z.to_nat len) reg_data).
        { intros rx Hl. split.
          - rewrite length_app, Hl, length_drop. lia.
          - rewrite drop_app_ge by lia. rewrite Hl, Nat.sub_diag. reflexivity. }
        apply Hrx. rewrite length_take, length_drop, length_overlay;
          rewrite ?length_take, length_alloca; lia.
Qed.

Lemma read_keeps_tail_witness :
  exists (rslt : Z) (reg_data' : list Z),
    fst (@Read bosch_defs (scripted healthy) SPI 0x1D [0; 0; 9] 2 addr_of_dev_addr both_open)
    = Some (rslt, reg_data')
    /\ length reg_data' = 3%nat
    /\ drop 2 reg_data' = [9].
Proof.
  apply (@read_keeps_tail bosch_defs (scripted healthy) SPI 0x1D [0; 0; 9] 2
           addr_of_dev_addr both_open).
  - lia.
  - simpl. lia.
Defined.

(** A loop that stores well for [n] passes and whose next pass is
    undefined is undefined as a whole. *)
Lemma for_loop_breaks {R} (val : nat -> Z) (off : nat)
    (body : Z -> list Z -> stmt R (list Z)) (w : world) (len : nat) :
  forall (n m k : nat) (buf : list Z),
    Z.of_nat (k + n) < 2 ^ 32 ->
    length buf = len ->
    (forall (j : nat) (b : list Z),
        (k <= j < k + n)%nat -> length b = len ->
        body (Z.of_nat j) b w = Falls (<[(j + off)%nat := val j]> b) w) ->
    (forall b : list Z, length b = len -> body (Z.of_nat (k + n)) b w = Undefined w) ->
    for_loop (n + S m) (Z.of_nat k) body buf w = Undefined w.
Proof.
  induction n as [|n IH]; intros m k buf Hk Hlen Hbody Hbreak.
  - cbn [Nat.add for_loop]. unfold mbind, stmt_bind.
    rewrite Nat.add_0_r in Hbreak. rewrite Hbreak by assumption. reflexivity.
  - cbn [Nat.add for_loop]. unfold mbind, stmt_bind.
    rewrite Hbody by lia.
    replace (u32 (Z.of_nat k + 1)) with (Z.of_nat (S k)) by (rewrite u32_id; lia).
    apply IH.
    + lia.
    + rewrite length_insert. exact Hlen.
    + intros j b Hj Hb. apply Hbody; [lia|exact Hb].
    + intros b Hb. replace (S k + n)%nat with (k + S n)%nat by lia. apply Hbreak. exact Hb.
Qed.

Lemma load_beyond {R} (buf : list Z) (i : nat) (w : world) :
  (length buf <= i)%nat -> load (R := R) buf (Z.of_nat i) w = Undefined w.
Proof.
  intros Hi. unfold load. destruct (decide _) as [_|Hn]; [|lia].
  rewrite Nat2Z.id, (lookup_ge_None_2 buf i Hi). reflexivity.
Qed.

(** X10. On an open handle, a Write of [2^32 - 1] bytes is undefined, and
    so is an SPI Read of as many: [len + 1] wraps to 0, and the frame array
    is declared with no element. No external call is made before that. The
    length is not validated. *)
Theorem length_overflow_undefined `{!bme69x_defs} `{!platform}
    (t : transport) (reg_addr : Z) (reg_data : list Z) (p : data_ptr) (w : world) :
  0 <= handle t w ->
  Write t reg_addr reg_data (2 ^ 32 - 1) p w = (None, w)
  /\ (0 <= spi_handle w -> bme69x_spi_read reg_addr reg_data (2 ^ 32 - 1) p w = (None, w)).
Proof.
  intros Hopen.
  destruct (frame_without_size t reg_addr reg_data p w) as [Hwrite Hread].
  split; [exact Hwrite|intros _; exact Hread].
Qed.

Lemma length_overflow_undefined_witness :
  @Write bosch_defs (scripted healthy) I2C 0xF4 [0x25] (2 ^ 32 - 1) addr_of_dev_addr both_open
  = (None, both_open).
Proof.
  destruct (@length_overflow_undefined bosch_defs (scripted healthy) I2C 0xF4 [0x25]
              addr_of_dev_addr both_open) as [Hwrite _].
  - simpl. lia.
  - exact Hwrite.
Defined.

(** X11. On an open handle, a Write of more bytes than the caller's array
    holds is undefined: the copy loop reads past the end of the array. No
    external call is made before that. *)
Theorem write_beyond_array_undefined `{!bme69x_defs} `{!platform}
    (t : transport) (reg_addr : Z) (reg_data : list Z) (len : Z) (p : data_ptr)
    (w : world) :
  Z.of_nat (length reg_data) < len < 2 ^ 32 - 1 ->
  0 <= handle t w ->
  Write t reg_addr reg_data len p w = (None, w).
Proof.
  intros Hlen Hopen.
  assert (Hloop : forall (R : Type) (first : Z) (junk : list Z)
            (body : Z -> list Z -> stmt R (list Z)),
            (forall i buffer w', body i buffer w'
               = (v ← load reg_data i; store buffer (u32 (i + 1)) v) w') ->
            length junk = S (Z.to_nat len) ->
            for_loop (Z.to_nat len) 0 body (<[0%nat := first]> junk) w = Undefined w).
  { intros R first junk body Hbody Hjunk.
    replace (Z.to_nat len)
      with (length reg_data + S (Z.to_nat len - length reg_data - 1))%nat at 1 by lia.
    apply (for_loop_breaks (fun j => nth j reg_data 0) 1 body w (S (Z.to_nat len))
             (length reg_data) _ 0%nat).
    - lia.
    - rewrite length_insert. exact Hjunk.
    - intros j b Hj Hb. rewrite Hbody. unfold mbind, stmt_bind.
      rewrite load_ok by lia.
      replace (u32 (Z.of_nat j + 1)) with (Z.of_nat (j + 1)) by (rewrite u32_id; lia).
      apply store_ok. lia.
    - intros b Hb. rewrite Hbody. unfold mbind, stmt_bind.
      rewrite load_beyond by lia. reflexivity. }
  destruct t; cbn [Write handle] in *;
    unfold bme69x_i2c_write, bme69x_spi_write; run;
    sized len;
    match goal with |- context [?x <? 0] => destruct (Z.ltb_spec x 0) end;
    try lia;
    rewrite store_first by (rewrite length_alloca; lia);
    (rewrite Hloop; [reflexivity|reflexivity|rewrite length_alloca; lia]).
Qed.

Lemma write_beyond_array_undefined_witness :
  @Write bosch_defs (scripted healthy) SPI 0x74 [0x25] 2 addr_of_dev_addr both_open
  = (None, both_open).
Proof.
  apply (@write_beyond_array_undefined bosch_defs (scripted healthy) SPI 0x74 [0x25] 2
           addr_of_dev_addr both_open).
  - simpl. lia.
  - simpl. lia.
Defined.

(** Bytes stay bytes under the two address markers and under the framing. *)
Lemma bytes_of_frames (reg_addr : Z) (reg_data : list Z) (n : nat) :
  0 <= reg_addr < 256 ->
  Forall (fun b => 0 <= b < 256) reg_data ->
  Forall (fun b => 0 <= b < 256) (reg_addr :: take n reg_data)
  /\ Forall (fun b => 0 <= b < 256) (Z.land reg_addr 0x7F :: take n reg_data)
  /\ Forall (fun b => 0 <= b < 256) (Z.lor reg_addr 0x80 :: replicate n 0).
Proof.
  intros Hreg Hdata.
  assert (Hland : 0 <= Z.land reg_addr 0x7F < 0x80).
  { change 0x7F with (Z.ones 7). rewrite Z.land_ones by lia.
    apply Z.mod_pos_bound. lia. }
  assert (Hlor : 0 <= Z.lor reg_addr 0x80 < 256).
  { assert (Hpos : 0 <= Z.lor reg_addr 0x80) by (apply Z.lor_nonneg; lia).
    split; [exact Hpos|].
    destruct (Z.eq_dec (Z.lor reg_addr 0x80) 0) as [->|Hnz]; [lia|].
    change 256 with (2 ^ 8). apply Z.log2_lt_pow2; [lia|].
    rewrite Z.log2_lor by lia.
    apply Z.max_lub_lt.
    - destruct (Z.eq_dec reg_addr 0) as [->|Hr]; [cbn; lia|].
      apply Z.log2_lt_pow2; lia.
    - cbn. lia. }
  repeat split.
  - apply Forall_cons. split; [lia|]. apply Forall_take. exact Hdata.
  - apply Forall_cons. split; [lia|]. apply Forall_take. exact Hdata.
  - apply Forall_cons. split; [lia|]. apply Forall_replicate. lia.
Qed.

(** X12. When the register address and the caller's data are bytes, so is
    everything the shim hands to a transfer primitive on an open handle:
    the frame Write transmits on either transport and the request frame of
    the SPI Read. *)
Theorem frames_hold_bytes `{!bme69x_defs} `{!platform}
    (t : transport) (reg_addr : Z) (reg_data : list Z) (len : Z) (p : data_ptr)
    (w : world) :
  0 <= len < 2 ^ 32 - 1 ->
  len <= Z.of_nat (length reg_data) ->
  0 <= reg_addr < 256 ->
  Forall (fun b => 0 <= b < 256) reg_data ->
  (0 <= handle t w ->
   exists (frame : list Z) (result : Z),
     snd (Write t reg_addr reg_data len p w)
     = logged (Event (transmit t (handle t w) frame (len + 1)) result) w
     /\ Forall (fun b => 0 <= b < 256) frame)
  /\ (0 <= spi_handle w ->
      exists (request : list Z) (answer : Z * list Z),
        snd (bme69x_spi_read reg_addr reg_data len p w)
        = logged (Event (spiXfer (spi_handle w) request (len + 1)) answer) w
        /\ Forall (fun b => 0 <= b < 256) request).
Proof.
  intros Hlen Hdata Hreg Hbytes.
  destruct (bytes_of_frames reg_addr reg_data (Z.to_nat len) Hreg Hbytes)
    as (Hi2c & Hspi & Hreq).
  split; intros Hopen.
  - destruct t; cbn [Write handle transmit] in *.
    + rewrite i2c_write_open by assumption. eexists _, _. split; [reflexivity|exact Hi2c].
    + rewrite spi_write_open by assumption. eexists _, _. split; [reflexivity|exact Hspi].
  - rewrite spi_read_open by assumption. eexists _, _. split; [reflexivity|exact Hreq].
Qed.

Lemma frames_hold_bytes_witness :
  exists (request : list Z) (answer : Z * list Z),
    snd (@bme69x_spi_read bosch_defs (scripted healthy) 0x1D [0; 0; 9] 2 addr_of_dev_addr
           both_open)
    = logged (Event (spiXfer 0 request 3) answer) both_open
    /\ Forall (fun b => 0 <= b < 256) request.
Proof.
  destruct (@frames_hold_bytes bosch_defs (scripted healthy) SPI 0x1D [0; 0; 9] 2
              addr_of_dev_addr both_open) as [_ Hreq].
  - lia.
  - simpl. lia.
  - lia.
  - repeat (apply Forall_cons; split; [lia|]). apply Forall_nil_2.
  - apply Hreq. simpl. lia.
Defined.

(** ** Self-test *)

(** The shape of every run of the self-test. *)
Lemma selftest_trace `{!bme69x_defs} `{!platform} (dev : bme69x_dev) (w : world) :
  let run := custom_selftest_check dev w in
  Forall as_programmed (calls_since w (snd run))
  /\ paced (calls_since w (snd run))
  /\ calls (snd run) = calls_since w (snd run) ++ calls w
  /\ i2c_handle (snd run) = i2c_handle w
  /\ spi_handle (snd run) = spi_handle w
  /\ dev_addr (snd run) = dev_addr w.
Proof.
  intros run. unfold run, custom_selftest_check, call_delay_us, bme69x_delay_us. run.
  cbn [negb fst snd calls stdout logged i2c_handle spi_handle dev_addr].
  walk; since_goal;
    (split; [repeat (apply Forall_cons_2); try apply Forall_nil_2;
             cbn [as_programmed]; repeat split|]);
    (split; [cbn [paced measured estimated waited]; repeat split; eauto|]);
    repeat split.
Qed.

(** X13. Whatever the driver answers, the external calls of the self-test
    are driver calls and the delay, never a call that opens or closes a bus,
    moves bytes over one, or starts or stops the GPIO library; every driver
    call that takes a mode gets the forced mode, the
    configuration written is the programmed one whatever was read, and the
    heater is configured for 300 degrees and 100 ms. The self-test only
    adds to the history, and leaves the handles and the device address as
    they are. *)
Theorem selftest_calls_as_programmed `{!bme69x_defs} `{!platform}
    (dev : bme69x_dev) (w : world) :
  let run := custom_selftest_check dev w in
  Forall as_programmed (calls_since w (snd run))
  /\ calls (snd run) = calls_since w (snd run) ++ calls w
  /\ i2c_handle (snd run) = i2c_handle w
  /\ spi_handle (snd run) = spi_handle w
  /\ dev_addr (snd run) = dev_addr w.
Proof.
  intros run. destruct (selftest_trace dev w) as (Hp & _ & Hc & Hi & Hs & Ha).
  repeat split; assumption.
Qed.

(** X21. In every run of the self-test, a call of [bme69x_get_data] comes
    right after the delay, which comes right after the call of
    [bme69x_get_meas_dur]; the delay is the duration the driver estimated
    plus the 100 ms of the heater in microseconds, reduced to 32 bits. *)
Theorem delay_before_measurement `{!bme69x_defs} `{!platform}
    (dev : bme69x_dev) (w : world) :
  paced (calls_since w (snd (custom_selftest_check dev w))).
Proof. destruct (selftest_trace dev w) as (_ & Hpaced & _). exact Hpaced. Qed.

(** How the self-test ends when a driver call fails. *)
Lemma selftest_aborts `{!bme69x_defs} `{!platform} (dev : bme69x_dev) (w : world) :
  let run := custom_selftest_check dev w in
  (forall r : Z,
      r ∈ omap aborting (calls_since w (snd run)) -> r <> BME69X_OK ->
      fst <$> fst run = Some r
      /\ match head (calls_since w (snd run)) with
         | Some e => aborting e = Some r
         | None => False
         end)
  /\ (forall (r : Z) (d : bme69x_data) (n : Z),
        (r, d, n) ∈ omap measured (calls_since w (snd run)) ->
        r <> BME69X_OK \/ n = 0 ->
        fst <$> fst run = Some BME69X_E_COM_FAIL
        /\ match head (calls_since w (snd run)) with
           | Some e => measured e = Some (r, d, n)
           | None => False
           end).
Proof.
  intros run. unfold run, custom_selftest_check, call_delay_us, bme69x_delay_us. run.
  cbn [negb fst snd calls stdout logged i2c_handle spi_handle dev_addr].
  walk; since_goal; tidy.
  all: split;
    [ intros r Hr Hne; cbn [omap list_omap aborting] in Hr; pick Hr; subst r;
      first [congruence | split; reflexivity]
    | intros r d n Hd Hbad; cbn [omap list_omap measured] in Hd; pick Hd;
      injection Hd as -> -> ->;
      first [ split; reflexivity
            | exfalso; destruct Hbad; congruence ] ].
Qed.

(** X14. When [bme69x_get_conf], [bme69x_set_conf] or [bme69x_set_op_mode]
    gives a status other than [BME69X_OK], the self-test returns that very
    status, and the failing call is its last external call. *)
Theorem fatal_status_returned `{!bme69x_defs} `{!platform}
    (dev : bme69x_dev) (w : world) (r : Z) :
  let run := custom_selftest_check dev w in
  r ∈ omap aborting (calls_since w (snd run)) ->
  r <> BME69X_OK ->
  fst <$> fst run = Some r
  /\ match head (calls_since w (snd run)) with
     | Some e => aborting e = Some r
     | None => False
     end.
Proof.
  intros run Hr Hne. destruct (selftest_aborts dev w) as [Habort _].
  exact (Habort r Hr Hne).
Qed.

Lemma fatal_status_returned_witness :
  fst <$> fst (@custom_selftest_check bosch_defs (scripted no_set_conf) ready both_open)
  = Some (-4).
Proof.
  destruct (@fatal_status_returned bosch_defs (scripted no_set_conf) ready both_open (-4))
    as [Hst _].
  - vm_compute. apply list_elem_of_here.
  - simpl. lia.
  - exact Hst.
Defined.

(** X15. When [bme69x_get_data] gives a status other than [BME69X_OK], or
    gives no field, the self-test returns the communication-failure status
    in place of the driver's status, and validates nothing: the call is its
    last external call. *)
Theorem no_data_is_communication_failure `{!bme69x_defs} `{!platform}
    (dev : bme69x_dev) (w : world) (r : Z) (d : bme69x_data) (n : Z) :
  let run := custom_selftest_check dev w in
  (r, d, n) ∈ omap measured (calls_since w (snd run)) ->
  r <> BME69X_OK \/ n = 0 ->
  fst <$> fst run = Some BME69X_E_COM_FAIL
  /\ match head (calls_since w (snd run)) with
     | Some e => measured e = Some (r, d, n)
     | None => False
     end.
Proof.
  intros run Hd Hbad. destruct (selftest_aborts dev w) as [_ Hdata].
  exact (Hdata r d n Hd Hbad).
Qed.

Lemma no_data_is_communication_failure_witness :
  fst <$> fst (@custom_selftest_check bosch_defs (scripted no_new_data) ready both_open)
  = Some (-2).
Proof.
  destruct (@no_data_is_communication_failure bosch_defs (scripted no_new_data) ready
              both_open 2 fair_weather 0) as [Hst _].
  - vm_compute. apply list_elem_of_here.
  - left. simpl. lia.
  - exact Hst.
Defined.

Lemma stdout_since_app (w w' : world) (lines : list (string * list printf_arg)) :
  stdout w' = lines ++ stdout w -> stdout_since w w' = lines.
Proof.
  intros Hc. unfold stdout_since. rewrite Hc, length_app.
  replace (length lines + length (stdout w) - length (stdout w))%nat
    with (length lines) by lia.
  apply take_app_length.
Qed.

Ltac lines_before t s :=
  lazymatch t with
  | s => constr:(@nil (string * list printf_arg))
  | ?x :: ?t' => let r := lines_before t' s in constr:(x :: r)
  end.

Ltac lines_goal :=
  repeat match goal with
         | |- context [stdout_since ?w ?w'] =>
             let c := eval cbn [stdout logged] in (stdout w') in
             let pre := lines_before c (stdout w) in
             rewrite (stdout_since_app w w' pre eq_refl)
         end.

(** X16. In a run of the self-test whose record passes validation, the
    warning that the heater is not stable is printed once by the check of
    the gas sensor status, when the record has new data and a valid gas
    measurement but no stable heater, and once more by the summary, when
    the heater is not stable or the heater current index is [0xFF]: twice
    for one unstable heater. *)
Theorem heater_not_stable_printed `{!bme69x_defs} `{!platform}
    (dev : bme69x_dev) (w : world) (d : bme69x_data) (n : Z) :
  let run := custom_selftest_check dev w in
  (BME69X_OK, d, n) ∈ omap measured (calls_since w (snd run)) ->
  n <> 0 ->
  violates d = false ->
  count_format heater_not_stable (stdout_since w (snd run))
  = ((if masked (status d) BME69X_NEW_DATA_MSK && masked (status d) BME69X_GASM_VALID_MSK
      then if masked (status d) BME69X_HEAT_STAB_MSK then 0 else 1
      else 0)
     + (if negb (masked (status d) BME69X_HEAT_STAB_MSK) || (idac d =? 0xFF)%Z
        then 1 else 0))%nat.
Proof.
  intros run. unfold run, custom_selftest_check, call_delay_us, bme69x_delay_us. run.
  intros Hd Hn Hv. unfold violates, outside, hPa in Hv.
  cbn [negb fst snd calls stdout logged i2c_handle spi_handle dev_addr] in *.
  walk; since_in Hd; cbn [omap list_omap measured] in Hd; pick Hd.
  all: injection Hd as <- <- <-.
  all: tidy; try congruence.
  all: try (settle Hv; discriminate).
  all: lines_goal; reflexivity.
Qed.

Lemma heater_not_stable_printed_witness :
  let run := @custom_selftest_check bosch_defs (scripted unstable) ready both_open in
  count_format heater_not_stable (stdout_since both_open (snd run)) = 2%nat.
Proof.
  intros run.
  apply (@heater_not_stable_printed bosch_defs (scripted unstable) ready both_open
           cold_heater 1).
  - vm_compute. apply list_elem_of_here.
  - lia.
  - vm_compute. reflexivity.
Defined.

(** ** Validation of readings *)

Lemma ltb_nan_l (x : spec_float) : F32.ltb S754_nan x = false.
Proof. reflexivity. Qed.

Lemma ltb_nan_r (x : spec_float) : F32.ltb x S754_nan = false.
Proof. destruct x; reflexivity. Qed.

Lemma div_nan (y : spec_float) : F32.div S754_nan y = S754_nan.
Proof. reflexivity. Qed.

(** X17. A record whose three readings are NaN passes validation: no
    comparison with a NaN holds, so none of the range checks fires, and the
    self-test gives [BME69X_OK] for it. *)
Theorem nan_readings_pass `{!bme69x_defs} `{!platform}
    (dev : bme69x_dev) (w : world) (d : bme69x_data) (n : Z) :
  let run := custom_selftest_check dev w in
  (BME69X_OK, d, n) ∈ omap measured (calls_since w (snd run)) ->
  n <> 0 ->
  temperature d = S754_nan ->
  pressure d = S754_nan ->
  humidity d = S754_nan ->
  violates d = false /\ in_range d = false /\ fst <$> fst run = Some BME69X_OK.
Proof.
  intros run Hd Hn Ht Hp Hh.
  assert (Hv : violates d = false).
  { unfold violates, outside, hPa. rewrite Ht, Hp, Hh, div_nan.
    rewrite !ltb_nan_l, !ltb_nan_r. reflexivity. }
  split; [exact Hv|]. split.
  - unfold in_range, within. rewrite Ht. reflexivity.
  - pose proof (status_of_validation dev w d n Hd Hn) as Hst.
    cbv zeta in Hst. rewrite Hv in Hst. exact Hst.
Qed.

Lemma nan_readings_pass_witness :
  fst <$> fst (@custom_selftest_check bosch_defs (scripted all_nan) ready both_open)
  = Some 0.
Proof.
  destruct (@nan_readings_pass bosch_defs (scripted all_nan) ready both_open no_numbers 1)
    as (_ & _ & Hst).
  - vm_compute. apply list_elem_of_here.
  - lia.
  - reflexivity.
  - reflexivity.
  - reflexivity.
  - exact Hst.
Defined.

(** ** [bme69x_check_rslt] and [main] *)

(** X19. [bme69x_check_rslt] only prints: it makes no external call and
    leaves the handles as they are. For [BME69X_OK] it prints nothing; for
    any other status it prints exactly one line, which carries the name of
    the API and the status. *)
Theorem check_rslt_prints `{!bme69x_defs} `{!platform}
    (api_name : string) (rslt : Z) (w : world) :
  let run := bme69x_check_rslt api_name rslt w in
  fst run = Some tt
  /\ calls (snd run) = calls w
  /\ i2c_handle (snd run) = i2c_handle w
  /\ spi_handle (snd run) = spi_handle w
  /\ (rslt = BME69X_OK -> stdout (snd run) = stdout w)
  /\ (rslt <> BME69X_OK ->
      exists fmt : string,
        stdout (snd run) = (fmt, [arg_str api_name; arg_int rslt]) :: stdout w).
Proof.
  unfold bme69x_check_rslt. run.
  destruct (Z.eqb_spec rslt BME69X_OK) as [Hok|Hko].
  - repeat split; first [reflexivity | intros; contradiction].
  - repeat match goal with |- context [if ?c then _ else _] => destruct c end;
      (repeat split; try reflexivity; [intros; contradiction | intros _; eexists; reflexivity]).
Qed.

Lemma check_rslt_prints_witness :
  exists fmt : string,
    stdout (snd (@bme69x_check_rslt bosch_defs "bme69x_init" (-3) initial_world))
    = [(fmt, [arg_str "bme69x_init"; arg_int (-3)])].
Proof.
  destruct (@check_rslt_prints bosch_defs (scripted healthy) "bme69x_init" (-3)
              initial_world) as (_ & _ & _ & _ & _ & Hline).
  apply Hline. simpl. lia.
Defined.

(** X20. Whatever the initialisations and the self-test report, a run of
    [main] that is defined ends with Deinit: its last external call is
    [gpioTerminate], and no bus is left open. *)
Theorem main_ends_with_deinit `{!bme69x_defs} `{!platform} (bme : bme69x_dev) (w : world) :
  fst (main bme w) <> None ->
  head (calls (snd (main bme w))) = Some (Event gpioTerminate tt)
  /\ i2c_handle (snd (main bme w)) < 0
  /\ spi_handle (snd (main bme w)) < 0.
Proof.
  unfold main. run.
  destruct (interface_init_defined bme BME69X_I2C_INTF w) as (r1 & dev1 & Hinit).
  destruct (bme69x_interface_init (Some bme) BME69X_I2C_INTF w) as [o1 w1].
  cbn [fst] in Hinit. subst o1. cbn [default from_option id].
  destruct (check_rslt_quiet "bme69x_interface_init" r1 w1) as (w2 & -> & _).
  destruct (answer_of _ (calls w2) (bme69x_init dev1)) as [r2 bme1].
  cbv beta iota.
  destruct (check_rslt_quiet "bme69x_init" r2 (logged (Event (bme69x_init dev1) (r2, bme1)) w2))
    as (w3 & -> & _).
  destruct (custom_selftest_check bme1 w3) as [[[rslt bme2]|] w4];
    [|intros Hdef; contradiction].
  intros _.
  destruct (rslt =? BME69X_OK);
    match goal with
    | |- context [bme69x_pigpio_deinit ?w5] =>
        destruct (deinit_spec w5) as (Hd & _ & Hi & Hs & Hlast & _);
        destruct (bme69x_pigpio_deinit w5) as [o5 w6]
    end;
    cbn [fst snd] in *; subst o5; cbn [fst snd calls i2c_handle spi_handle];
    (split; [exact Hlast|]); rewrite Hi, Hs;
    split;
    match goal with
    | |- context [0 <=? ?h] => destruct (Z.leb_spec 0 h); lia
    end.
Qed.

Lemma main_ends_with_deinit_witness :
  head (calls (snd (@main bosch_defs (scripted too_hot) stack_garbage initial_world)))
  = Some (Event gpioTerminate tt).
Proof.
  destruct (@main_ends_with_deinit bosch_defs (scripted too_hot) stack_garbage initial_world)
    as [Hlast _].
  - vm_compute. discriminate.
  - exact Hlast.
Defined.

(** ** Init after Init *)

(** Deinit only adds to the history. *)
Lemma deinit_extends `{!bme69x_defs} `{!platform} (w : world) :
  calls (snd (bme69x_pigpio_deinit w))
  = calls_since w (snd (bme69x_pigpio_deinit w)) ++ calls w.
Proof.
  unfold bme69x_pigpio_deinit. run. cbn [i2c_handle spi_handle logged].
  destruct (0 <=? i2c_handle w); cbn [i2c_handle spi_handle logged];
    destruct (0 <=? spi_handle w); cbn [i2c_handle spi_handle logged calls fst snd];
    since_goal; reflexivity.
Qed.

(** X22. Init never closes a handle. When the handle of transport [t] is
    already open and Init succeeds on [t] again, the old handle is
    overwritten without a close call, and a Deinit after that closes the
    new handle, not the old one: over the two calls together, the one
    close call on [t] is made on the handle the second open gave. The only
    other close call is that of the other transport, when its bus is
    open. *)
Theorem reinit_forgets_open_handle `{!bme69x_defs} `{!platform}
    (t : transport) (dev : bme69x_dev) (w : world) :
  (t = SPI -> BME69X_SPI_INTF <> BME69X_I2C_INTF) ->
  0 <= handle t w ->
  let g := answer_of Z (calls w) gpioInitialise in
  let h := answer_of Z (Event gpioInitialise g :: calls w) (open_call t) in
  0 <= g ->
  0 <= h ->
  let again := snd (bme69x_interface_init (Some dev) (selector t) w) in
  let final := snd (bme69x_pigpio_deinit again) in
  let elsewhere :=
    if 0 <=? handle (other t) w then [(other t, handle (other t) w)] else [] in
  omap closed (calls_since w again) = []
  /\ handle t again = h
  /\ omap closed (calls_since w final)
     = match t with
       | I2C => elsewhere ++ [(I2C, h)]
       | SPI => [(SPI, h)] ++ elsewhere
       end.
Proof.
  intros Hsel Hold g h Hup Hopen again final elsewhere.
  pose proof (init_selected t dev w Hsel Hup) as Hinit.
  cbv zeta in Hinit. fold g in Hinit. fold h in Hinit. fold again in Hinit.
  destruct Hinit as (Hh & Ho & _ & _ & _ & Hok).
  destruct (Hok Hopen) as [_ Hcalls]. clearbody h.
  assert (Hsince : calls_since w again = [Event (open_call t) h; Event gpioInitialise g])
    by (apply calls_since_app; exact Hcalls).
  assert (Hnone : omap closed [Event (open_call t) h; Event gpioInitialise g] = [])
    by (destruct t; reflexivity).
  split; [rewrite Hsince; exact Hnone|]. split; [exact Hh|].
  destruct (deinit_spec again) as (_ & Hclosed & _).
  pose proof (deinit_extends again) as Hext. fold final in Hclosed, Hext.
  rewrite (calls_since_app w final
             (calls_since again final ++ [Event (open_call t) h; Event gpioInitialise g])).
  - rewrite omap_app, Hnone, app_nil_r, Hclosed. unfold elsewhere.
    destruct t; cbn [handle other] in *; rewrite Hh, Ho;
      (destruct (Z.leb_spec 0 h); [|lia]); reflexivity.
  - rewrite Hext, Hcalls, <- app_assoc. reflexivity.
Qed.

(** The theorem at work: both buses are open, I2C on handle 5 and SPI on
    handle 3, and Init opens I2C again, on handle 0. *)
Lemma reinit_forgets_open_handle_witness :
  let w := {| dev_addr := 0x77; i2c_handle := 5; spi_handle := 3; calls := [];
              stdout := [] |} in
  let again := snd (@bme69x_interface_init bosch_defs (scripted healthy)
                      (Some stack_garbage) 1 w) in
  omap closed (calls_since w (snd (@bme69x_pigpio_deinit (scripted healthy) again)))
  = [(SPI, 3); (I2C, 0)].
Proof.
  intros w again.
  destruct (@reinit_forgets_open_handle bosch_defs (scripted healthy) I2C stack_garbage w)
    as (_ & _ & Hclosed).
  - intros Heq. discriminate Heq.
  - simpl. lia.
  - simpl. lia.
  - simpl. lia.
  - exact Hclosed.
Defined.
